(** * deleted_libraries.py: processes that still map deleted shared libraries

    A shallow embedding of [src/deleted_libraries.py] and the properties of
    its three functions: [process_maps_entry], [count_processes_per_library]
    and [main].

    Python values are modelled as follows.
    - [str] is a sequence of Unicode code points, [list N].
    - [bytes] is [list Byte.byte].
    - [int] is [Z].
    - a [dict] keyed by [str] is a [gmap]; iteration over it goes through
      [map_to_list], and the results below that depend on iteration are
      proved for every enumeration order.
    - a function that mutates the dictionary it is given is a computation
      in a state and exception monad whose state is that dictionary. *)

From Stdlib Require Import ZArith NArith List.
From Stdlib.Strings Require Import Byte String Ascii.
From stdpp Require Import gmap list fin_maps.

Local Open Scope Z_scope.

(** ** Python strings and bytes *)

Abbreviation str := (list N).
Abbreviation bytes := (list byte).

(** An ASCII literal as a Python [str]. *)
Definition py (s : string) : str :=
  List.map (fun b => Byte.to_N b) (list_byte_of_string s).

(** An ASCII literal as a [bytes] object. *)
Definition raw (s : string) : bytes := list_byte_of_string s.

(** [needle in hay] for two [str]: [needle] occurs as a contiguous run. *)
Fixpoint startswith (needle hay : str) : bool :=
  match needle, hay with
  | [], _ => true
  | _ :: _, [] => false
  | a :: needle', b :: hay' => (a =? b)%N && startswith needle' hay'
  end.

Fixpoint contains (needle hay : str) : bool :=
  startswith needle hay ||
  match hay with
  | [] => false
  | _ :: hay' => contains needle hay'
  end.

(** [str.isspace] on one code point (CPython's [_PyUnicode_IsWhitespace]). *)
Definition isspace (c : N) : bool :=
  ((9 <=? c) && (c <=? 13) || (28 <=? c) && (c <=? 32)
   || (c =? 133) || (c =? 160) || (c =? 5760)
   || (8192 <=? c) && (c <=? 8202)
   || (c =? 8232) || (c =? 8233) || (c =? 8239) || (c =? 8287)
   || (c =? 12288))%N.

(** [s.lstrip()], [s.rstrip()] and [s.strip()]. *)
Fixpoint lstrip (s : str) : str :=
  match s with
  | c :: s' => if isspace c then lstrip s' else s
  | [] => []
  end.

Definition rstrip (s : str) : str := rev (lstrip (rev s)).

Definition strip (s : str) : str := rstrip (lstrip s).

(** [s.split()]: the maximal runs of non-whitespace, in order.  [word] is
    the run being read, kept reversed. *)
Fixpoint split_aux (word : str) (s : str) : list str :=
  match s with
  | [] => match word with [] => [] | _ => [rev word] end
  | c :: s' =>
      if isspace c
      then match word with
           | [] => split_aux [] s'
           | _ => rev word :: split_aux [] s'
           end
      else split_aux (c :: word) s'
  end.

Definition split (s : str) : list str := split_aux [] s.

(** [b.decode()]: strict UTF-8.  [None] stands for [UnicodeDecodeError]. *)
Definition is_cont (b : N) : bool := ((128 <=? b) && (b <=? 191))%N.

Definition between (lo hi b : N) : bool := ((lo <=? b) && (b <=? hi))%N.

Definition cp2 (b0 b1 : N) : N :=
  N.lor (N.shiftl (N.land b0 31) 6) (N.land b1 63).

Definition cp3 (b0 b1 b2 : N) : N :=
  N.lor (N.shiftl (N.land b0 15) 12)
        (N.lor (N.shiftl (N.land b1 63) 6) (N.land b2 63)).

Definition cp4 (b0 b1 b2 b3 : N) : N :=
  N.lor (N.shiftl (N.land b0 7) 18)
        (N.lor (N.shiftl (N.land b1 63) 12)
               (N.lor (N.shiftl (N.land b2 63) 6) (N.land b3 63))).

Fixpoint decode_N (bs : list N) : option str :=
  match bs with
  | [] => Some []
  | b0 :: r0 =>
      if (b0 <? 128)%N then
        match decode_N r0 with Some s => Some (b0 :: s) | None => None end
      else if between 194 223 b0 then
        match r0 with
        | b1 :: r1 =>
            if is_cont b1 then
              match decode_N r1 with
              | Some s => Some (cp2 b0 b1 :: s)
              | None => None
              end
            else None
        | _ => None
        end
      else if between 224 239 b0 then
        match r0 with
        | b1 :: b2 :: r2 =>
            if between (if (b0 =? 224)%N then 160 else 128)
                       (if (b0 =? 237)%N then 159 else 191) b1
               && is_cont b2
            then
              match decode_N r2 with
              | Some s => Some (cp3 b0 b1 b2 :: s)
              | None => None
              end
            else None
        | _ => None
        end
      else if between 240 244 b0 then
        match r0 with
        | b1 :: b2 :: b3 :: r3 =>
            if between (if (b0 =? 240)%N then 144 else 128)
                       (if (b0 =? 244)%N then 143 else 191) b1
               && is_cont b2 && is_cont b3
            then
              match decode_N r3 with
              | Some s => Some (cp4 b0 b1 b2 b3 :: s)
              | None => None
              end
            else None
        | _ => None
        end
      else None
  end.

Definition decode (b : bytes) : option str :=
  decode_N (List.map Byte.to_N b).

(** ** Exceptions and the state monad of a mutated dictionary *)

Inductive exn : Type :=
  | AttributeError
  | UnicodeDecodeError
  | OSError (errno : Z)
  | SystemExit (message : str).

Inductive result (A : Type) : Type :=
  | Ok (a : A)
  | Raise (e : exn).
Arguments Ok {A} a.
Arguments Raise {A} e.

(** A computation over a mutable object of type [S]: the object's final
    state is returned also when an exception is raised, since what was
    written before the exception stays written. *)
Definition M (S A : Type) : Type := S -> result A * S.

Definition ret {S A} (a : A) : M S A := fun s => (Ok a, s).

Definition bind {S A B} (m : M S A) (k : A -> M S B) : M S B :=
  fun s =>
    match m s with
    | (Ok a, s') => k a s'
    | (Raise e, s') => (Raise e, s')
    end.

Definition raise {S A} (e : exn) : M S A := fun s => (Raise e, s).

Declare Scope py_scope.
Delimit Scope py_scope with py.
Notation "x <- m ;; k" := (bind m (fun x => k))
  (at level 100, m at next level, right associativity) : py_scope.
Notation "m ;; k" := (bind m (fun _ => k))
  (at level 100, right associativity) : py_scope.

(** ** The two aggregates *)

(** A [defaultdict(int)] from library path to count. *)
Abbreviation counts := (gmap str Z).

(** A value of the per-process dictionary: a dictionary of counts, or
    anything else ([isinstance(v, dict)] is false). *)
Inductive entry : Type :=
  | LibraryCounts (library_count : counts)
  | NotADict.

(** The per-process dictionary, keyed by the path of the maps file. *)
Abbreviation aggregate := (gmap str entry).

(** [m.setdefault(k, v)], the returned value dropped. *)
Definition setdefault (k : str) (v : Z) (m : counts) : counts :=
  match m !! k with
  | Some _ => m
  | None => <[k:=v]> m
  end.

(** [m[k] += n] on a [defaultdict(int)]: a missing key reads as [0]. *)
Definition iadd (k : str) (n : Z) (m : counts) : counts :=
  <[k := default 0 (m !! k) + n]> m.

(** ** process_maps_entry *)

Definition lib_marker : str := py "/lib/".
Definition deleted_marker : str := py "(deleted)".

(** [path not in d] *)
Definition not_in (path : str) : M aggregate bool :=
  fun d => (Ok (bool_decide (d !! path = None)), d).

(** [d[path] = defaultdict(int)] *)
Definition new_entry (path : str) : M aggregate unit :=
  fun d => (Ok tt, <[path := LibraryCounts ∅]> d).

(** [d[path].f(...)] for a method [f] of [dict] that updates the inner
    dictionary in place.  A value that is not a dictionary is taken to have
    no such method.  On a missing key the dictionary of [main], a
    [defaultdict(lambda: defaultdict(int))], makes the entry first; the key
    is present wherever [process_maps_entry] gets here. *)
Definition on_entry (path : str) (f : counts -> counts) : M aggregate unit :=
  fun d =>
    match d !! path with
    | Some (LibraryCounts m) => (Ok tt, <[path := LibraryCounts (f m)]> d)
    | Some NotADict => (Raise AttributeError, d)
    | None => (Ok tt, <[path := LibraryCounts (f ∅)]> d)
    end.

Definition process_maps_entry (path : str) (line_parts : list str)
  : M aggregate unit :=
  (if negb (length line_parts =? 7)%nat then ret tt
   else
     let library := nth 5 line_parts [] in
     let comment := nth 6 line_parts [] in
     if contains lib_marker library && contains deleted_marker comment then
       fresh <- not_in path ;;
       (if fresh : bool then new_entry path else ret tt) ;;
       on_entry path (setdefault library 0) ;;
       on_entry path (iadd library 1)
     else ret tt)%py.

(** ** count_processes_per_library *)

(** The inner loop: [for library in library_count]. *)
Definition count_libraries (libraries : list str) (num : counts) : counts :=
  fold_left (fun num library => iadd library 1 (setdefault library 0 num))
            libraries num.

(** The outer loop over [items()], in the order [items] lists them. *)
Definition count_items (items : list (str * entry)) (num : counts) : counts :=
  fold_left
    (fun num '(process, library_count) =>
       match library_count with
       | NotADict => num
       | LibraryCounts m => count_libraries (map fst (map_to_list m)) num
       end)
    items num.

(** [d.items()] *)
Definition dict_items : M aggregate (list (str * entry)) :=
  fun d => (Ok (map_to_list d), d).

(** The state is the dictionary passed as argument; the value returned is
    the new dictionary [num_processes_per_library]. *)
Definition count_processes_per_library : M aggregate counts :=
  (items <- dict_items ;;
   ret (count_items items ∅))%py.

(** ** main *)

Definition ENOENT : Z := 2.
Definition EACCES : Z := 13.

(** What reading the next line of an open file gives: a line, or an
    [OSError] from the read. *)
Inductive chunk : Type :=
  | Line (b : bytes)
  | ReadFails (errno : Z).

(** What [open(path, "rb")] gives for a path that [glob] listed. *)
Inductive maps_file : Type :=
  | OpenFails (errno : Z)
  | Opened (content : list chunk).

(** The paths listed by [glob.glob("/proc/*/maps")], in order, each with
    what opening and reading it gives. *)
Abbreviation proc_table := (list (str * maps_file)).

(** [for line in file: process_maps_entry(path, line.decode().strip().split(), d)] *)
Fixpoint read_lines (path : str) (content : list chunk) : M aggregate unit :=
  match content with
  | [] => ret tt
  | Line b :: rest =>
      match decode b with
      | None => raise UnicodeDecodeError
      | Some s =>
          (process_maps_entry path (split (strip s)) ;;
           read_lines path rest)%py
      end
  | ReadFails errno :: _ => raise (OSError errno)
  end.

(** [with open(path, "rb") as file: ...] *)
Definition open_and_read (path : str) (f : maps_file) : M aggregate unit :=
  match f with
  | OpenFails errno => raise (OSError errno)
  | Opened content => read_lines path content
  end.

(** [try: m except (EnvironmentError, PermissionError) as e: h e]: both
    classes are [OSError] or a subclass of it; every other exception
    passes through. *)
Definition try_except_OSError {S A} (m : M S A) (h : Z -> M S A) : M S A :=
  fun s =>
    match m s with
    | (Raise (OSError errno), s') => h errno s'
    | r => r
    end.

Definition failed_to_open (path : str) : str :=
  py "Failed to open file: " ++ path.

(** The loop of [main] over the listed paths. *)
Fixpoint scan_all_processes (table : proc_table) : M aggregate unit :=
  match table with
  | [] => ret tt
  | (path, f) :: rest =>
      (try_except_OSError (open_and_read path f)
         (fun errno =>
            if negb (errno =? ENOENT)
            then raise (SystemExit (failed_to_open path))
            else ret tt) ;;
       scan_all_processes rest)%py
  end.

(** [main] up to the dictionary that is handed to the gauge and printed:
    [Ok num] is normal completion, with the document rendered from [num] on
    standard output; [Raise e] is termination by [e] with nothing printed on
    standard output.  The rendering itself is [prometheus_client]'s. *)
Definition main (table : proc_table) : result counts :=
  fst ((scan_all_processes table ;; count_processes_per_library)%py ∅).

(** The exit status of the interpreter: [0] on normal completion, [1] both
    for [sys.exit] with a message and for an uncaught exception. *)
Definition exit_status (r : result counts) : Z :=
  match r with
  | Ok _ => 0
  | Raise _ => 1
  end.

(** Whether the metrics document reaches standard output. *)
Definition metrics_emitted (r : result counts) : bool :=
  match r with
  | Ok _ => true
  | Raise _ => false
  end.

(** The message [sys.exit] was called with, when that is how the run ended. *)
Definition exit_message (r : result counts) : option str :=
  match r with
  | Raise (SystemExit msg) => Some msg
  | _ => None
  end.

(** ** What the claims speak of *)

(** [ProcessLibraryCounts[path][library]], when there is such a cell. *)
Definition count_of (d : aggregate) (path library : str) : option Z :=
  match d !! path with
  | Some (LibraryCounts m) => m !! library
  | _ => None
  end.

(** Whether a value of the per-process dictionary is a dictionary that has
    [library] among its keys. *)
Definition links (library : str) (e : entry) : bool :=
  match e with
  | LibraryCounts m => bool_decide (is_Some (m !! library))
  | NotADict => false
  end.

(** The number of items whose value is a dictionary with key [library]. *)
Definition linking (library : str) (items : list (str * entry)) : nat :=
  length (List.filter (fun pe => links library (snd pe)) items).

(** The number of processes of [d] that link [library]. *)
Definition processes_linking (library : str) (d : aggregate) : nat :=
  linking library (map_to_list d).

(** The raw line [b] decodes to a seven-field record whose path field is
    [library] and which is classified as a deleted library. *)
Definition deleted_library_record (library : str) (b : bytes) : bool :=
  match decode b with
  | None => false
  | Some s =>
      let line_parts := split (strip s) in
      (length line_parts =? 7)%nat
      && bool_decide (nth 5 line_parts [] = library)
      && contains lib_marker library
      && contains deleted_marker (nth 6 line_parts [])
  end.

(** The run of [read_lines] from [d] over [content] reaches the line [b]
    and decodes it. *)
Definition read_from (path : str) (d : aggregate) (content : list chunk)
    (b : bytes) : Prop :=
  exists before after d',
    content = before ++ Line b :: after
    /\ read_lines path before d = (Ok tt, d')
    /\ is_Some (decode b).

(** The scan of [table] from [d] reaches the maps file [p] and, in it, the
    line [b]. *)
Definition processed_from (d : aggregate) (table : proc_table) (p : str)
    (b : bytes) : Prop :=
  exists pre content post d',
    table = pre ++ (p, Opened content) :: post
    /\ scan_all_processes pre d = (Ok tt, d')
    /\ read_from p d' content b.

(** The mapping records that a run of [main] on [table] processes. *)
Definition processed (table : proc_table) (p : str) (b : bytes) : Prop :=
  processed_from ∅ table p b.

(** Every value of [d] is a dict, and every key of it comes from a line
    among [seen] that is classified as a deleted library. *)
Definition recorded (seen : str -> bytes -> Prop) (d : aggregate) : Prop :=
  forall p e, d !! p = Some e ->
    exists m, e = LibraryCounts m
      /\ forall library, is_Some (m !! library) ->
           exists b, seen p b /\ deleted_library_record library b = true.

(** [isinstance(e, dict)] *)
Definition is_dict (e : entry) : bool :=
  match e with
  | LibraryCounts _ => true
  | NotADict => false
  end.

(** The per-process dictionary without the values that are not a dict. *)
Definition dict_entries (d : aggregate) : aggregate :=
  filter (fun pe : str * entry => is_dict (snd pe)) d.

(** ** Sample inputs *)

Definition proc_7 : str := py "/proc/7/maps".
Definition proc_101 : str := py "/proc/101/maps".
Definition proc_102 : str := py "/proc/102/maps".
Definition proc_103 : str := py "/proc/103/maps".
Definition proc_999 : str := py "/proc/999/maps".

Definition libfoo : str := py "/lib/x86_64-linux-gnu/libfoo.so.1".
Definition libbar : str := py "/lib/libbar.so".

(** A line of [/proc/<pid>/maps] with a deleted library, with its newline. *)
Definition line_libfoo_deleted : bytes :=
  raw "7f0000000000-7f0000021000 r-xp 00000000 08:01 131 /lib/x86_64-linux-gnu/libfoo.so.1 (deleted)"
  ++ [x0a].

(** The same mapping with the library still on disk: six fields. *)
Definition line_libfoo_mapped : bytes :=
  raw "7f0000000000-7f0000021000 r-xp 00000000 08:01 131 /lib/x86_64-linux-gnu/libfoo.so.1"
  ++ [x0a].

Definition line_libbar_deleted : bytes :=
  raw "7f0000000000-7f0000021000 r-xp 00000000 08:01 131 /lib/libbar.so (deleted)"
  ++ [x0a].

Definition line_lib64_deleted : bytes :=
  raw "7f0000000000-7f0000021000 r-xp 00000000 08:01 131 /lib64/libc.so.6 (deleted)"
  ++ [x0a].

(** [line.decode().strip().split()] of a line that decodes. *)
Definition fields (b : bytes) : list str :=
  match decode b with
  | Some s => split (strip s)
  | None => []
  end.

(** Processes 101 and 102 map a deleted library, 101 through two records;
    process 103 maps none. *)
Definition three_processes : aggregate :=
  <[proc_101 := LibraryCounts {[libbar := 2]}]>
    (<[proc_102 := LibraryCounts {[libbar := 1]}]>
       (<[proc_103 := LibraryCounts ∅]> ∅)).

(** The same scan as a process table; process 103 maps [libfoo], not
    deleted. *)
Definition three_maps_files : proc_table :=
  [ (proc_101, Opened [Line line_libbar_deleted; Line line_libbar_deleted]);
    (proc_102, Opened [Line line_libbar_deleted]);
    (proc_103, Opened [Line line_libfoo_mapped]) ].

(** ** The scan, line by line *)

(** What one line adds: the library of a seven-field line that has both
    markers. *)
Definition classify (line_parts : list str) : option str :=
  if (length line_parts =? 7)%nat
     && contains lib_marker (nth 5 line_parts [])
     && contains deleted_marker (nth 6 line_parts [])
  then Some (nth 5 line_parts [])
  else None.

(** One more mapping record of [library] for the process [path]. *)
Definition bump (path library : str) (d : aggregate) : aggregate :=
  match d !! path with
  | None => <[path := LibraryCounts {[library := 1]}]> d
  | Some (LibraryCounts m) =>
      <[path := LibraryCounts (<[library := default 0 (m !! library) + 1]> m)]> d
  | Some NotADict => d
  end.

(** The lines of an open file that reach [process_maps_entry]: those before
    the first read that fails and the first line that does not decode. *)
Fixpoint lines_processed (content : list chunk) : list bytes :=
  match content with
  | Line b :: rest =>
      match decode b with
      | Some _ => b :: lines_processed rest
      | None => []
      end
  | _ => []
  end.

(** The number of lines that are deleted-library records of [library]. *)
Definition hits (library : str) (lines : list bytes) : nat :=
  length (List.filter (deleted_library_record library) lines).

(** No value of the dictionary is something else than a dict. *)
Definition all_dicts (d : aggregate) : Prop :=
  forall p, d !! p ≠ Some NotADict.

(** What the line [b] of the maps file [path] does to the dictionary. *)
Definition record_line (path : str) (d : aggregate) (b : bytes) : aggregate :=
  match classify (fields b) with
  | Some library => bump path library d
  | None => d
  end.

(** What a maps file does to the dictionary when nothing stops the scan
    before the end of the file. *)
Definition record_file (d : aggregate) (pf : str * maps_file) : aggregate :=
  match snd pf with
  | OpenFails _ => d
  | Opened content => fold_left (record_line (fst pf)) (lines_processed content) d
  end.

(** A read or an open that does not stop the scan. *)
Definition clean_chunk (c : chunk) : bool :=
  match c with
  | Line b => bool_decide (is_Some (decode b))
  | ReadFails errno => errno =? ENOENT
  end.

Definition clean_file (f : maps_file) : bool :=
  match f with
  | OpenFails errno => errno =? ENOENT
  | Opened content => forallb clean_chunk content
  end.

Definition clean (table : proc_table) : bool :=
  forallb (fun pf => clean_file (snd pf)) table.

(** Every value is a dict that is not empty and holds counts from 1 up. *)
Definition positive_counts (d : aggregate) : Prop :=
  forall p e, d !! p = Some e ->
    exists m, e = LibraryCounts m
      /\ m ≠ ∅
      /\ forall library n, m !! library = Some n -> 1 <= n.

(** The deleted-library records of [library] among the lines processed from
    the files listed under the path [p]. *)
Definition table_hits (p library : str) (table : proc_table) : nat :=
  list_sum
    (map (fun pf : str * maps_file =>
            match snd pf with
            | Opened content =>
                if bool_decide (fst pf = p)
                then hits library (lines_processed content)
                else 0%nat
            | OpenFails _ => 0%nat
            end)
         table).

(** A count after [k] more records: unchanged for none, and counting from 0
    when there was no count. *)
Definition add_records (c : option Z) (k : nat) : option Z :=
  if (k =? 0)%nat then c else Some (default 0 c + Z.of_nat k).

(** The paths of [table] under which some processed line is a
    deleted-library record of [library]. *)
Definition linking_paths (library : str) (table : proc_table) : gset str :=
  filter (fun p => table_hits p library table ≠ 0%nat)
         (list_to_set (map fst table)).

(** ** Sums over the two dictionaries *)

(** The sum of the counts of a dictionary. *)
Definition total (num : counts) : Z :=
  map_fold (fun _ n acc => n + acc) 0 num.

(** The number of (process, library) pairs of the per-process dictionary:
    the keys of its dict values, summed. *)
Definition pairs (items : list (str * entry)) : nat :=
  list_sum
    (map (fun pe : str * entry =>
            match snd pe with
            | LibraryCounts m => size m
            | NotADict => 0%nat
            end)
         items).

(** ** Fields *)

(** A field: a [str] that is not empty and has no whitespace in it. *)
Definition word (w : str) : Prop :=
  w ≠ [] /\ Forall (fun c => isspace c = false) w.

(** [sep.join(ws)] *)
Fixpoint join (sep : str) (ws : list str) : str :=
  match ws with
  | [] => []
  | [w] => w
  | w :: ws' => w ++ sep ++ join sep ws'
  end.

(** ** The labels of the gauge *)

(** The path separator of [posixpath]. *)
Definition sep : N := 47.

(** [p.rfind("/") + 1]: the index after the last separator, [0] when there
    is none. *)
Fixpoint after_last_sep (p : str) : nat :=
  match p with
  | [] => 0%nat
  | c :: p' =>
      match after_last_sep p' with
      | O => if (c =? sep)%N then 1%nat else 0%nat
      | S i => S (S i)
      end
  end.

Fixpoint lstrip_sep (s : str) : str :=
  match s with
  | c :: s' => if (c =? sep)%N then lstrip_sep s' else s
  | [] => []
  end.

(** [head.rstrip("/")] *)
Definition rstrip_sep (head : str) : str := rev (lstrip_sep (rev head)).

(** [head == "/" * len(head)] *)
Definition all_sep (head : str) : bool :=
  forallb (fun c => (c =? sep)%N) head.

(** [os.path.split(p)] of [posixpath]:
    [i = p.rfind(sep) + 1; head, tail = p[:i], p[i:]], and the trailing
    separators of [head] are stripped unless it is empty or nothing but
    separators. *)
Definition os_path_split (p : str) : str * str :=
  let i := after_last_sep p in
  let head := take i p in
  let tail := drop i p in
  (if negb (bool_decide (head = [])) && negb (all_sep head)
   then rstrip_sep head
   else head,
   tail).

(** The loop of [main] over the items of the derived dictionary:
    [g.labels(dir_path, basename).set(count)] for each, a later value for
    the same pair of labels replacing an earlier one. *)
Definition set_labels (items : list (str * Z)) (g : gmap (str * str) Z)
  : gmap (str * str) Z :=
  fold_left
    (fun g '(library, count) => <[os_path_split library := count]> g)
    items g.

(** A path that [os.path.split] takes apart and that can be put together
    again: no two separators in a row. *)
Definition single_seps (p : str) : bool := negb (contains [sep; sep] p).

(** A head and a tail put together again, with one separator between them
    unless the head is empty or is the root. *)
Definition rejoin (ht : str * str) : str :=
  if bool_decide (fst ht = []) then snd ht
  else if bool_decide (fst ht = [sep]) then sep :: snd ht
  else fst ht ++ sep :: snd ht.

Ltac unfold_monad :=
  unfold bind, ret, raise, not_in, new_entry, on_entry, dict_items in *.

(** * Properties *)

(** ** Substring test *)

Lemma startswith_spec (needle hay : str) :
  startswith needle hay = true <-> exists post, hay = needle ++ post.
Proof.
  revert hay. induction needle as [|a needle IH]; intros hay; simpl.
  - split; [intros _; by exists hay | done].
  - destruct hay as [|b hay].
    + split; [done | intros [post Hpost]; discriminate].
    + rewrite andb_true_iff, N.eqb_eq, IH. split.
      * intros [-> [post ->]]. by exists post.
      * intros [post Hpost]. injection Hpost as -> ->. eauto.
Qed.

Lemma contains_spec (needle hay : str) :
  contains needle hay = true <-> exists pre post, hay = pre ++ needle ++ post.
Proof.
  induction hay as [|b hay IH]; simpl.
  - rewrite orb_false_r, startswith_spec. split.
    + intros [post Hpost]. by exists [], post.
    + intros (pre & post & Heq). destruct pre; [by exists post |discriminate].
  - rewrite orb_true_iff, startswith_spec, IH. split.
    + intros [[post Hpost] | (pre & post & ->)].
      * by exists [], post.
      * by exists (b :: pre), post.
    + intros (pre & post & Heq). destruct pre as [|c pre].
      * left. by exists post.
      * right. injection Heq as -> ->. by exists pre, post.
Qed.

Lemma contains_app_r (needle pre : str) :
  contains needle (pre ++ needle) = true.
Proof. apply contains_spec. exists pre, []. by rewrite app_nil_r. Qed.

(** ** process_maps_entry, case by case *)

Lemma process_maps_entry_field_count (path : str) (line_parts : list str)
    (d : aggregate) :
  length line_parts ≠ 7%nat ->
  process_maps_entry path line_parts d = (Ok tt, d).
Proof.
  intros Hlen. unfold process_maps_entry.
  by apply Nat.eqb_neq in Hlen as ->.
Qed.

Lemma process_maps_entry_miss (path : str) (line_parts : list str)
    (d : aggregate) :
  contains lib_marker (nth 5 line_parts [])
  && contains deleted_marker (nth 6 line_parts []) = false ->
  process_maps_entry path line_parts d = (Ok tt, d).
Proof.
  intros Hmiss. unfold process_maps_entry.
  destruct (length line_parts =? 7)%nat; simpl; [|done].
  by rewrite Hmiss.
Qed.

Lemma setdefault_iadd (library : str) (m : counts) :
  iadd library 1 (setdefault library 0 m)
  = <[library := default 0 (m !! library) + 1]> m.
Proof.
  unfold iadd, setdefault. destruct (m !! library) as [v|] eqn:Hm.
  - by rewrite Hm.
  - by rewrite lookup_insert_eq, insert_insert_eq.
Qed.

Lemma process_maps_entry_hit (path : str) (line_parts : list str)
    (d : aggregate) :
  length line_parts = 7%nat ->
  contains lib_marker (nth 5 line_parts []) = true ->
  contains deleted_marker (nth 6 line_parts []) = true ->
  process_maps_entry path line_parts d =
    match d !! path with
    | None =>
        (Ok tt, <[path := LibraryCounts {[nth 5 line_parts [] := 1]}]> d)
    | Some (LibraryCounts m) =>
        (Ok tt,
         <[path := LibraryCounts
                     (<[nth 5 line_parts [] :=
                          default 0 (m !! nth 5 line_parts []) + 1]> m)]> d)
    | Some NotADict => (Raise AttributeError, d)
    end.
Proof.
  intros Hlen Hlib Hdel. unfold process_maps_entry.
  rewrite Hlen, Hlib, Hdel. simpl. unfold_monad.
  destruct (d !! path) as [[m|]|] eqn:Hd.
  - rewrite bool_decide_eq_false_2 by congruence. rewrite Hd.
    rewrite lookup_insert_eq, insert_insert_eq.
    by rewrite setdefault_iadd.
  - rewrite bool_decide_eq_false_2 by congruence. by rewrite Hd.
  - rewrite bool_decide_eq_true_2 by done.
    rewrite !lookup_insert_eq, !insert_insert_eq.
    by rewrite setdefault_iadd, lookup_empty.
Qed.

(** ** The two loops of count_processes_per_library *)

Lemma count_libraries_lookup (libraries : list str) (num : counts)
    (library : str) :
  NoDup libraries ->
  count_libraries libraries num !! library =
    if bool_decide (library ∈ libraries)
    then Some (default 0 (num !! library) + 1)
    else num !! library.
Proof.
  unfold count_libraries. intros Hnd. revert num.
  induction Hnd as [|a libraries Ha Hnd IH]; intros num; cbn [fold_left].
  - by rewrite bool_decide_eq_false_2 by apply not_elem_of_nil.
  - rewrite setdefault_iadd, IH. destruct (decide (library = a)) as [->|Hne].
    + rewrite (bool_decide_eq_false_2 (a ∈ libraries)) by done.
      rewrite bool_decide_eq_true_2 by (by left).
      by rewrite lookup_insert_eq.
    + rewrite lookup_insert_ne by done.
      destruct (decide (library ∈ libraries)) as [Hin|Hin].
      * rewrite (bool_decide_eq_true_2 _ Hin).
        by rewrite bool_decide_eq_true_2 by (by right).
      * rewrite (bool_decide_eq_false_2 _ Hin).
        by rewrite bool_decide_eq_false_2 by (by apply not_elem_of_cons).
Qed.

Lemma keys_links (library : str) (m : counts) :
  bool_decide (library ∈ map fst (map_to_list m))
  = links library (LibraryCounts m).
Proof.
  simpl. apply bool_decide_ext. rewrite list_elem_of_fmap. split.
  - intros [[k v] [-> Hkv]]. apply elem_of_map_to_list in Hkv. by exists v.
  - intros [v Hv]. exists (library, v). split; [done|].
    by apply elem_of_map_to_list.
Qed.

Lemma count_items_lookup (items : list (str * entry)) (num : counts)
    (library : str) :
  count_items items num !! library =
    if (linking library items =? 0)%nat
    then num !! library
    else Some (default 0 (num !! library) + Z.of_nat (linking library items)).
Proof.
  unfold count_items, linking. revert num.
  induction items as [|[process e] items IH]; intros num; simpl; [done|].
  rewrite IH. clear IH. destruct e as [m|]; simpl; [|done].
  rewrite count_libraries_lookup by apply NoDup_fst_map_to_list.
  rewrite keys_links. simpl.
  destruct (bool_decide (is_Some (m !! library))); simpl; [|done].
  destruct (length _) as [|n] eqn:Hn; simpl.
  - done.
  - f_equal. lia.
Qed.

Lemma linking_Permutation (library : str) (items items' : list (str * entry)) :
  items ≡ₚ items' -> linking library items = linking library items'.
Proof.
  unfold linking. induction 1 as [|x l l' _ IH|x y l|l l' l'' _ IH1 _ IH2];
    simpl; try done.
  - destruct (links library x.2); simpl; by rewrite IH.
  - by destruct (links library x.2), (links library y.2).
  - by rewrite IH1.
Qed.

Lemma linking_le_length (library : str) (items : list (str * entry)) :
  (linking library items <= length items)%nat.
Proof.
  unfold linking. induction items as [|x items IH]; simpl; [done|].
  destruct (links library x.2); simpl; lia.
Qed.

(** The loop over [items()] gives the same dictionary in every order of
    enumeration. *)
Lemma count_items_Permutation (items items' : list (str * entry))
    (num : counts) :
  items ≡ₚ items' -> count_items items num = count_items items' num.
Proof.
  intros Hperm. apply map_eq. intros library.
  by rewrite !count_items_lookup, (linking_Permutation _ _ _ Hperm).
Qed.

Lemma count_processes_per_library_eq (d : aggregate) :
  count_processes_per_library d = (Ok (count_items (map_to_list d) ∅), d).
Proof. done. Qed.

Lemma derived_lookup (d : aggregate) (library : str) :
  count_items (map_to_list d) ∅ !! library =
    if (processes_linking library d =? 0)%nat then None
    else Some (Z.of_nat (processes_linking library d)).
Proof.
  rewrite count_items_lookup, lookup_empty. fold (processes_linking library d).
  by destruct (processes_linking library d =? 0)%nat.
Qed.

Lemma processes_linking_insert (library : str) (d : aggregate)
    (process : str) (e : entry) :
  d !! process = None ->
  processes_linking library (<[process := e]> d)
  = ((if links library e then 1 else 0) + processes_linking library d)%nat.
Proof.
  intros Hfresh. unfold processes_linking.
  rewrite (linking_Permutation _ _ _ (map_to_list_insert d process e Hfresh)).
  unfold linking. simpl. by destruct (links library e).
Qed.

Lemma processes_linking_dict_entries (library : str) (d : aggregate) :
  processes_linking library (dict_entries d) = processes_linking library d.
Proof.
  unfold dict_entries.
  induction d as [|process e d Hfresh IH] using map_ind.
  - by rewrite map_filter_empty.
  - rewrite processes_linking_insert by done.
    rewrite map_filter_insert. case_decide as He.
    + rewrite processes_linking_insert, IH; [done|].
      by rewrite map_lookup_filter_None_2; [|left].
    + rewrite delete_id by done. rewrite IH. by destruct e.
Qed.

(** ** count_processes_per_library *)

(** C1: for every per-process dictionary [d] and library path [library],
    [count_processes_per_library] returns a dictionary in which the count
    of [library] is the number of process entries whose own dictionary has
    [library] as a key (the key is absent when there is none).  A process
    adds exactly 1, whatever the count [n] it holds for the library; and a
    library held by two of three processes gets 2. *)
Theorem C1_count_is_number_of_processes :
  (forall (d : aggregate) (library : str),
      exists num,
        count_processes_per_library d = (Ok num, d)
        /\ num !! library =
             if (processes_linking library d =? 0)%nat then None
             else Some (Z.of_nat (processes_linking library d)))
  /\ (forall (d : aggregate) (process library : str) (m : counts) (n : Z),
         d !! process = None ->
         m !! library = Some n ->
         exists num num',
           count_processes_per_library d = (Ok num, d)
           /\ count_processes_per_library (<[process := LibraryCounts m]> d)
              = (Ok num', <[process := LibraryCounts m]> d)
           /\ default 0 (num' !! library) = default 0 (num !! library) + 1)
  /\ (forall (A B C library : str) (mA mB mC : counts),
         A ≠ B -> A ≠ C -> B ≠ C ->
         is_Some (mA !! library) ->
         is_Some (mB !! library) ->
         mC !! library = None ->
         exists num,
           fst (count_processes_per_library
                  (<[A := LibraryCounts mA]>
                     (<[B := LibraryCounts mB]>
                        (<[C := LibraryCounts mC]> ∅))))
           = Ok num
           /\ num !! library = Some 2).
Proof.
  split; [|split].
  - intros d library. eexists. split; [apply count_processes_per_library_eq|].
    apply derived_lookup.
  - intros d process library m n Hfresh Hm. do 2 eexists.
    split; [apply count_processes_per_library_eq|].
    split; [apply count_processes_per_library_eq|].
    rewrite !derived_lookup, processes_linking_insert by done.
    simpl. rewrite bool_decide_eq_true_2 by eauto.
    destruct (processes_linking library d); simpl; lia.
  - intros A B C library mA mB mC HAB HAC HBC HA HB HC. eexists.
    split; [done|].
    rewrite derived_lookup.
    rewrite !processes_linking_insert; simpl.
    + rewrite !bool_decide_eq_true_2 by done.
      rewrite bool_decide_eq_false_2 by (rewrite HC; by intros [? ?]).
      done.
    + done.
    + by rewrite lookup_insert_ne.
    + by rewrite !lookup_insert_ne.
Qed.

(** C4: for every per-process dictionary [d] and library path [library],
    the derived count of [library] is at most the number of entries of
    [d]: it is the number of entries that link [library], each counted
    once. *)
Theorem C4_count_at_most_processes (d : aggregate) (library : str) :
  exists num,
    count_processes_per_library d = (Ok num, d)
    /\ default 0 (num !! library) = Z.of_nat (processes_linking library d)
    /\ 0 <= default 0 (num !! library) <= Z.of_nat (size d).
Proof.
  eexists. split; [apply count_processes_per_library_eq|].
  rewrite derived_lookup.
  pose proof (linking_le_length library (map_to_list d)) as Hle.
  rewrite length_map_to_list in Hle. fold (processes_linking library d) in Hle.
  destruct (processes_linking library d); simpl; lia.
Qed.

(** C7: [count_processes_per_library] leaves the dictionary it is given as
    it was, and two calls in a row on the same dictionary return the same
    dictionary.  The value returned is the same for every order in which
    [items()] may enumerate the entries. *)
Theorem C7_count_idempotent (d : aggregate) :
  exists num,
    count_processes_per_library d = (Ok num, d)
    /\ (num1 <- count_processes_per_library ;;
        num2 <- count_processes_per_library ;;
        ret (num1, num2))%py d = (Ok (num, num), d)
    /\ forall items, items ≡ₚ map_to_list d -> count_items items ∅ = num.
Proof.
  eexists. split; [apply count_processes_per_library_eq|]. split; [done|].
  intros items Hperm. by apply count_items_Permutation.
Qed.

(** C8: [count_processes_per_library] raises nothing, whatever the values
    of the dictionary are, and returns what it returns on the dictionary
    with every value that is not a dict removed: those entries add nothing
    and the others are counted as usual. *)
Theorem C8_count_skips_non_dict (d : aggregate) :
  exists num,
    count_processes_per_library d = (Ok num, d)
    /\ count_processes_per_library (dict_entries d) = (Ok num, dict_entries d)
    /\ forall library,
         default 0 (num !! library)
         = Z.of_nat (processes_linking library (dict_entries d)).
Proof.
  eexists. split; [apply count_processes_per_library_eq|].
  assert (count_items (map_to_list (dict_entries d)) ∅
          = count_items (map_to_list d) ∅) as Heq.
  { apply map_eq. intros library.
    by rewrite !derived_lookup, processes_linking_dict_entries. }
  split.
  - by rewrite count_processes_per_library_eq, Heq.
  - intros library. rewrite derived_lookup, processes_linking_dict_entries.
    by destruct (processes_linking library d).
Qed.

(** ** process_maps_entry *)

(** C6: on a line whose field count is not 7, [process_maps_entry] returns
    normally and the dictionary passed in is the same after the call as
    before it. *)
Theorem C6_other_field_count_no_mutation (path : str) (line_parts : list str)
    (d : aggregate) :
  length line_parts ≠ 7%nat ->
  process_maps_entry path line_parts d = (Ok tt, d).
Proof. apply process_maps_entry_field_count. Qed.

(** C2: on a line of exactly 7 fields, when the 6th field contains
    ["/lib/"] and the 7th contains ["(deleted)"], the call returns normally,
    the count of that library for that process is one more than before
    (counting from 0 when the library or the process was not there), every
    other count is as before, and so the dictionary has changed; this for a
    dictionary whose value at [path], if any, is a dict.  On every other
    line of 7 fields the call returns normally with the dictionary
    unchanged. *)
Theorem C2_seven_fields_classification (path : str) (line_parts : list str)
    (d : aggregate) :
  length line_parts = 7%nat ->
  let library := nth 5 line_parts [] in
  let comment := nth 6 line_parts [] in
  (contains lib_marker library = true
   /\ contains deleted_marker comment = true ->
   d !! path ≠ Some NotADict ->
   exists d',
     process_maps_entry path line_parts d = (Ok tt, d')
     /\ count_of d' path library
        = Some (default 0 (count_of d path library) + 1)
     /\ (forall p l, p ≠ path \/ l ≠ library ->
                     count_of d' p l = count_of d p l)
     /\ d' ≠ d)
  /\ (~ (contains lib_marker library = true
         /\ contains deleted_marker comment = true) ->
      process_maps_entry path line_parts d = (Ok tt, d)).
Proof.
  intros Hlen library comment. split.
  - intros [Hlib Hdel] Hdict.
    rewrite process_maps_entry_hit by done. fold library.
    destruct (d !! path) as [[m|]|] eqn:Hd; [|done|].
    + eexists. split; [done|]. unfold count_of.
      rewrite lookup_insert_eq, Hd. split; [by rewrite lookup_insert_eq|].
      split.
      * intros p l [Hp|Hl]; [by rewrite lookup_insert_ne|].
        destruct (decide (p = path)) as [->|Hp].
        -- by rewrite lookup_insert_eq, Hd, lookup_insert_ne.
        -- by rewrite lookup_insert_ne.
      * intros Heq. apply (f_equal (fun d' => d' !! path)) in Heq.
        rewrite lookup_insert_eq, Hd in Heq. injection Heq as Heq.
        apply (f_equal (fun m' => m' !! library)) in Heq.
        rewrite lookup_insert_eq in Heq.
        destruct (m !! library); simplify_eq/=. lia.
    + eexists. split; [done|]. unfold count_of.
      rewrite lookup_insert_eq, Hd. split; [by rewrite lookup_singleton_eq|].
      split.
      * intros p l [Hp|Hl]; [by rewrite lookup_insert_ne|].
        destruct (decide (p = path)) as [->|Hp].
        -- by rewrite lookup_insert_eq, Hd, lookup_singleton_ne.
        -- by rewrite lookup_insert_ne.
      * intros Heq. apply (f_equal (fun d' => d' !! path)) in Heq.
        by rewrite lookup_insert_eq, Hd in Heq.
  - intros Hmiss. apply process_maps_entry_miss. fold library comment.
    destruct (contains lib_marker library), (contains deleted_marker comment);
      try done.
    by destruct Hmiss.
Qed.

(** C10: on a line of 7 fields whose annotation contains ["(deleted)"] but
    whose path field does not contain ["/lib/"], [process_maps_entry]
    leaves the dictionary unchanged.  The marker is the substring
    ["/lib/"] itself, which neither ["/lib64/libc.so.6"] nor
    ["/usr/lib64/libm.so"] contains. *)
Theorem C10_lib64_not_counted :
  (forall (path : str) (line_parts : list str) (d : aggregate),
      length line_parts = 7%nat ->
      contains deleted_marker (nth 6 line_parts []) = true ->
      contains lib_marker (nth 5 line_parts []) = false ->
      process_maps_entry path line_parts d = (Ok tt, d))
  /\ (forall library : str,
         contains lib_marker library = true
         <-> exists pre post, library = pre ++ py "/lib/" ++ post)
  /\ contains lib_marker (py "/lib64/libc.so.6") = false
  /\ contains lib_marker (py "/usr/lib64/libm.so") = false.
Proof.
  split; [|split; [|split]].
  - intros path line_parts d _ _ Hlib. apply process_maps_entry_miss.
    by rewrite Hlib.
  - intros library. apply contains_spec.
  - reflexivity.
  - reflexivity.
Qed.

(** ** The scan of main *)

Lemma scan_all_processes_app (pre post : proc_table) (d : aggregate) :
  scan_all_processes (pre ++ post) d =
    match scan_all_processes pre d with
    | (Ok _, d') => scan_all_processes post d'
    | (Raise e, d') => (Raise e, d')
    end.
Proof.
  revert d. induction pre as [|[path f] pre IH]; intros d; [done|].
  cbn [app scan_all_processes]. unfold bind.
  destruct (try_except_OSError _ _ d) as [[[]|e] d']; [apply IH|done].
Qed.

Lemma read_lines_app (path : str) (before after : list chunk) (d : aggregate) :
  read_lines path (before ++ after) d =
    match read_lines path before d with
    | (Ok _, d') => read_lines path after d'
    | (Raise e, d') => (Raise e, d')
    end.
Proof.
  revert d. induction before as [|[b|errno] before IH]; intros d; try done.
  cbn [app read_lines]. destruct (decode b); [|done].
  unfold bind. destruct (process_maps_entry _ _ d) as [[[]|e] d']; [apply IH|done].
Qed.

Lemma scan_open_fails (path : str) (errno : Z) (rest : proc_table)
    (d : aggregate) :
  scan_all_processes ((path, OpenFails errno) :: rest) d =
    if (errno =? ENOENT)
    then scan_all_processes rest d
    else (Raise (SystemExit (failed_to_open path)), d).
Proof.
  cbn [scan_all_processes]. unfold bind, try_except_OSError. simpl.
  unfold raise. by destruct (errno =? ENOENT).
Qed.

Lemma main_eq (table : proc_table) :
  main table =
    match scan_all_processes table ∅ with
    | (Ok _, d) => Ok (count_items (map_to_list d) ∅)
    | (Raise e, _) => Raise e
    end.
Proof.
  unfold main, bind. by destruct (scan_all_processes table ∅) as [[[]|e] d].
Qed.

(** C3: when opening a listed maps file fails with [ENOENT], the scan goes
    on exactly as if the path had not been listed: nothing is added for
    that process, and a scan whose other files read normally completes and
    prints.  When the scan reaches a file whose opening fails with any
    other error number, the program ends by [sys.exit] with a message that
    contains the path: the exit status is not 0 and no metrics are
    printed. *)
Theorem C3_open_error_policy (pre post : proc_table) (path : str) :
  (forall d,
      scan_all_processes (pre ++ (path, OpenFails ENOENT) :: post) d
      = scan_all_processes (pre ++ post) d)
  /\ main (pre ++ (path, OpenFails ENOENT) :: post) = main (pre ++ post)
  /\ (forall d1 d2,
         scan_all_processes pre ∅ = (Ok tt, d1) ->
         scan_all_processes post d1 = (Ok tt, d2) ->
         exists num,
           main (pre ++ (path, OpenFails ENOENT) :: post) = Ok num
           /\ count_processes_per_library d2 = (Ok num, d2))
  /\ (forall errno d1,
         errno ≠ ENOENT ->
         scan_all_processes pre ∅ = (Ok tt, d1) ->
         let r := main (pre ++ (path, OpenFails errno) :: post) in
         r = Raise (SystemExit (failed_to_open path))
         /\ exit_status r ≠ 0
         /\ metrics_emitted r = false
         /\ exists msg, exit_message r = Some msg /\ contains path msg = true).
Proof.
  assert (forall d,
             scan_all_processes (pre ++ (path, OpenFails ENOENT) :: post) d
             = scan_all_processes (pre ++ post) d) as Hskip.
  { intros d. rewrite !scan_all_processes_app.
    destruct (scan_all_processes pre d) as [[[]|e] d']; [|done].
    by rewrite scan_open_fails. }
  split; [done|]. split; [by rewrite !main_eq, Hskip|]. split.
  - intros d1 d2 Hpre Hpost. eexists. split; [|apply count_processes_per_library_eq].
    by rewrite main_eq, Hskip, scan_all_processes_app, Hpre, Hpost.
  - intros errno d1 Herrno Hpre r.
    assert (r = Raise (SystemExit (failed_to_open path))) as ->.
    { unfold r. rewrite main_eq, scan_all_processes_app, Hpre, scan_open_fails.
      by apply Z.eqb_neq in Herrno as ->. }
    split; [done|]. split; [done|]. split; [done|].
    eexists. split; [done|]. apply contains_app_r.
Qed.

Lemma scan_opened (path : str) (content : list chunk) (rest : proc_table)
    (d : aggregate) :
  scan_all_processes ((path, Opened content) :: rest) d =
    match read_lines path content d with
    | (Ok _, d') => scan_all_processes rest d'
    | (Raise (OSError errno), d') =>
        if (errno =? ENOENT)
        then scan_all_processes rest d'
        else (Raise (SystemExit (failed_to_open path)), d')
    | (Raise e, d') => (Raise e, d')
    end.
Proof.
  cbn [scan_all_processes]. unfold bind, try_except_OSError. simpl.
  destruct (read_lines path content d) as [[[]|[| |errno|msg]] d']; try done.
  unfold raise, ret. by destruct (errno =? ENOENT).
Qed.

(** C9 (as the code has it): when the scan reaches a line that does not
    decode, [UnicodeDecodeError] leaves [main] uncaught: the exit status is
    not 0, no metrics are printed, and neither the rest of the file nor any
    later file is read.  The run does not end by [sys.exit], so there is no
    message that names the path. *)
Theorem C9_decode_failure_uncaught (pre post : proc_table) (path : str)
    (before after : list chunk) (b : bytes) (d1 d2 : aggregate) :
  scan_all_processes pre ∅ = (Ok tt, d1) ->
  read_lines path before d1 = (Ok tt, d2) ->
  decode b = None ->
  let r := main (pre ++ (path, Opened (before ++ Line b :: after)) :: post) in
  r = Raise UnicodeDecodeError
  /\ exit_status r ≠ 0
  /\ metrics_emitted r = false
  /\ exit_message r = None.
Proof.
  intros Hpre Hbefore Hdecode r.
  assert (r = Raise UnicodeDecodeError) as ->; [|done].
  unfold r. rewrite main_eq, scan_all_processes_app, Hpre, scan_opened.
  rewrite read_lines_app, Hbefore. cbn [read_lines]. by rewrite Hdecode.
Qed.

(** C9 as claimed fails: a maps file whose only line is the byte [0xff]
    ends the run with an uncaught [UnicodeDecodeError], not with the
    [sys.exit] message naming the path that an open error gives. *)
Lemma C9_counterexample_no_message_for_decode_failure :
  decode [xff] = None
  /\ main [(proc_7, Opened [Line [xff]])] = Raise UnicodeDecodeError
  /\ exit_message (main [(proc_7, Opened [Line [xff]])]) = None
  /\ main [(proc_7, OpenFails EACCES)]
     = Raise (SystemExit (failed_to_open proc_7))
  /\ main [(proc_7, Opened [Line [xff]])] ≠ main [(proc_7, OpenFails EACCES)].
Proof. by vm_compute. Qed.

(** ** Only deleted libraries enter the aggregates *)

Section Provenance.

Variable seen : str -> bytes -> Prop.

Lemma recorded_empty : recorded seen ∅.
Proof. intros p e Hp. by rewrite lookup_empty in Hp. Qed.

Lemma recorded_process_maps_entry (path : str) (b : bytes) (s : str)
    (d : aggregate) :
  seen path b -> decode b = Some s -> recorded seen d ->
  exists d', process_maps_entry path (split (strip s)) d = (Ok tt, d')
             /\ recorded seen d'.
Proof.
  intros Hseen Hdecode Hrec. set (line_parts := split (strip s)).
  destruct (decide (length line_parts = 7%nat)) as [Hlen|Hlen];
    [|exists d; by rewrite process_maps_entry_field_count].
  destruct (contains lib_marker (nth 5 line_parts [])) eqn:Hlib;
    [|exists d; by rewrite process_maps_entry_miss by (by rewrite Hlib)].
  destruct (contains deleted_marker (nth 6 line_parts [])) eqn:Hdel;
    [|exists d; by rewrite process_maps_entry_miss by (by rewrite Hlib, Hdel)].
  assert (deleted_library_record (nth 5 line_parts []) b = true) as Hb.
  { unfold deleted_library_record. rewrite Hdecode. fold line_parts.
    rewrite Hlen, Hlib, Hdel, bool_decide_eq_true_2; done. }
  rewrite process_maps_entry_hit by done.
  destruct (d !! path) as [[m|]|] eqn:Hd.
  - eexists. split; [done|]. intros p e Hp.
    destruct (decide (p = path)) as [->|Hne].
    + rewrite lookup_insert_eq in Hp. injection Hp as <-.
      eexists. split; [done|]. intros library Hlibrary.
      destruct (decide (library = nth 5 line_parts [])) as [->|Hother];
        [by exists b|].
      rewrite lookup_insert_ne in Hlibrary by done.
      destruct (Hrec _ _ Hd) as (m' & [= <-] & Hm'). by apply Hm'.
    + rewrite lookup_insert_ne in Hp by done. by apply Hrec.
  - by destruct (Hrec _ _ Hd) as (m' & ? & _).
  - eexists. split; [done|]. intros p e Hp.
    destruct (decide (p = path)) as [->|Hne].
    + rewrite lookup_insert_eq in Hp. injection Hp as <-.
      eexists. split; [done|]. intros library Hlibrary.
      destruct (decide (library = nth 5 line_parts [])) as [->|Hother];
        [by exists b|].
      rewrite lookup_singleton_ne in Hlibrary by done.
      by destruct Hlibrary.
    + rewrite lookup_insert_ne in Hp by done. by apply Hrec.
Qed.

Lemma recorded_read_lines (path : str) (content : list chunk)
    (d : aggregate) :
  (forall b, read_from path d content b -> seen path b) ->
  recorded seen d -> recorded seen (snd (read_lines path content d)).
Proof.
  revert d. induction content as [|[b|errno] content IH]; intros d Hseen Hrec;
    cbn [read_lines]; try done.
  destruct (decode b) as [s|] eqn:Hdecode; [|done].
  destruct (recorded_process_maps_entry path b s d) as (d' & Hd' & Hrec');
    [|done|done|].
  { apply Hseen. exists [], content, d. by rewrite Hdecode. }
  unfold bind. rewrite Hd'. apply IH; [|done].
  intros b' (before & after & d'' & -> & Hbefore & Hb'). apply Hseen.
  exists (Line b :: before), after, d''. split; [done|]. split; [|done].
  cbn [read_lines]. rewrite Hdecode. unfold bind. by rewrite Hd'.
Qed.

Lemma recorded_scan_all_processes (table : proc_table) (d : aggregate) :
  (forall p b, processed_from d table p b -> seen p b) ->
  recorded seen d -> recorded seen (snd (scan_all_processes table d)).
Proof.
  revert d. induction table as [|[path f] table IH]; intros d Hseen Hrec;
    [done|].
  assert (forall d',
             scan_all_processes [(path, f)] d = (Ok tt, d') ->
             forall p b, processed_from d' table p b -> seen p b) as Hnext.
  { intros d' Hfirst p b (pre & content & post & d'' & -> & Hpre & Hb).
    apply Hseen. exists ((path, f) :: pre), content, post, d''.
    split; [done|]. split; [|done].
    change ((path, f) :: pre) with ([(path, f)] ++ pre).
    by rewrite scan_all_processes_app, Hfirst. }
  destruct f as [errno|content].
  - rewrite scan_open_fails. rewrite scan_open_fails in Hnext.
    destruct (errno =? ENOENT); [|done]. apply IH; [|done].
    by apply Hnext.
  - rewrite scan_opened. rewrite scan_opened in Hnext.
    assert (recorded seen (snd (read_lines path content d))) as Hrec'.
    { apply recorded_read_lines; [|done]. intros b Hb. apply Hseen.
      by exists [], content, table, d. }
    destruct (read_lines path content d) as [[[]|e] d']; simpl in Hrec'.
    + apply IH; [|done]. by apply Hnext.
    + destruct e as [| |errno|msg]; try done.
      destruct (errno =? ENOENT); [|done]. apply IH; [|done].
      by apply Hnext.
Qed.

End Provenance.

Lemma linking_pos (library : str) (items : list (str * entry)) :
  linking library items ≠ 0%nat ->
  exists p m, In (p, LibraryCounts m) items /\ is_Some (m !! library).
Proof.
  unfold linking. induction items as [|[p e] items IH]; simpl; [done|].
  destruct (links library e) eqn:He.
  - intros _. destruct e as [m|]; [|done]. exists p, m. split; [by left|].
    simpl in He. by apply bool_decide_eq_true in He.
  - intros Hne. destruct (IH Hne) as (p' & m & Hin & Hm).
    exists p', m. split; [by right|done].
Qed.

(** C5: in every run of [main], a library path is a key of the
    per-process dictionary, or of the derived per-library dictionary, only
    if some mapping record that the run processed has it as its path field
    and is classified as a deleted library.  A library that no processed
    record marks as deleted is in neither dictionary. *)
Theorem C5_only_deleted_libraries_recorded (table : proc_table) :
  let d := snd (scan_all_processes table ∅) in
  (forall p library,
      is_Some (count_of d p library) ->
      exists b, processed table p b
                /\ deleted_library_record library b = true)
  /\ (forall num library,
         main table = Ok num ->
         is_Some (num !! library) ->
         exists p b, processed table p b
                     /\ deleted_library_record library b = true)
  /\ (forall library,
         (forall p b, processed table p b ->
                      deleted_library_record library b = false) ->
         (forall p, count_of d p library = None)
         /\ (forall num, main table = Ok num -> num !! library = None)).
Proof.
  intros d.
  assert (recorded (processed table) d) as Hrec.
  { apply recorded_scan_all_processes; [done|apply recorded_empty]. }
  assert (forall p library,
             is_Some (count_of d p library) ->
             exists b, processed table p b
                       /\ deleted_library_record library b = true) as Hkeys.
  { intros p library Hkey. unfold count_of in Hkey.
    destruct (d !! p) as [e|] eqn:Hp; [|by destruct Hkey].
    destruct (Hrec p e Hp) as (m & -> & Hm). by apply Hm. }
  assert (forall num library,
             main table = Ok num ->
             is_Some (num !! library) ->
             exists p b, processed table p b
                         /\ deleted_library_record library b = true) as Hnum.
  { intros num library Hmain Hkey. rewrite main_eq in Hmain.
    destruct (scan_all_processes table ∅) as [[[]|e] d'] eqn:Hscan; [|done].
    injection Hmain as <-. rewrite derived_lookup in Hkey.
    destruct (processes_linking library d' =? 0)%nat eqn:Hn;
      [by destruct Hkey|].
    apply Nat.eqb_neq, linking_pos in Hn as (p & m & Hin & Hm).
    apply list_elem_of_In, elem_of_map_to_list in Hin.
    exists p. apply Hkeys. unfold count_of, d. simpl. by rewrite Hin. }
  split; [done|]. split; [done|].
  intros library Hnone. split.
  - intros p. destruct (count_of d p library) as [n|] eqn:Hcount; [|done].
    destruct (Hkeys p library) as (b & Hb & Hrecord); [by rewrite Hcount|].
    by rewrite (Hnone p b Hb) in Hrecord.
  - intros num Hmain. destruct (num !! library) as [n|] eqn:Hcount; [|done].
    destruct (Hnum num library Hmain) as (p & b & Hb & Hrecord);
      [by rewrite Hcount|].
    by rewrite (Hnone p b Hb) in Hrecord.
Qed.

(** ** The theorems at sample inputs *)

Lemma processed_listed (table : proc_table) (p : str) (b : bytes) :
  processed table p b ->
  exists content, In (p, Opened content) table /\ In (Line b) content.
Proof.
  intros (pre & content & post & d' & -> & _ & before & after & _ & -> & _).
  exists (before ++ Line b :: after). split; apply in_elt.
Qed.

(** C1 at [three_processes]: a fourth process holding count 5 adds 1, and
    the library held by two of the three processes has count 2. *)
Lemma C1_witness :
  (three_processes !! proc_7 = None
   /\ ({[libbar := 5]} : counts) !! libbar = Some 5
   /\ exists num num',
        count_processes_per_library three_processes
        = (Ok num, three_processes)
        /\ count_processes_per_library
             (<[proc_7 := LibraryCounts {[libbar := 5]}]> three_processes)
           = (Ok num',
              <[proc_7 := LibraryCounts {[libbar := 5]}]> three_processes)
        /\ default 0 (num' !! libbar) = default 0 (num !! libbar) + 1)
  /\ (proc_101 ≠ proc_102 /\ proc_101 ≠ proc_103 /\ proc_102 ≠ proc_103
      /\ is_Some (({[libbar := 2]} : counts) !! libbar)
      /\ is_Some (({[libbar := 1]} : counts) !! libbar)
      /\ (∅ : counts) !! libbar = None
      /\ exists num,
           fst (count_processes_per_library three_processes) = Ok num
           /\ num !! libbar = Some 2).
Proof.
  destruct C1_count_is_number_of_processes as (_ & Hone & Htwo).
  split.
  - split; [reflexivity|]. split; [reflexivity|].
    apply (Hone three_processes proc_7 libbar {[libbar := 5]} 5);
      reflexivity.
  - assert (proc_101 ≠ proc_102) as H12 by (vm_compute; congruence).
    assert (proc_101 ≠ proc_103) as H13 by (vm_compute; congruence).
    assert (proc_102 ≠ proc_103) as H23 by (vm_compute; congruence).
    assert (is_Some (({[libbar := 2]} : counts) !! libbar)) as HA
      by (vm_compute; eauto).
    assert (is_Some (({[libbar := 1]} : counts) !! libbar)) as HB
      by (vm_compute; eauto).
    assert ((∅ : counts) !! libbar = None) as HC by reflexivity.
    repeat (split; [assumption|]).
    exact (Htwo proc_101 proc_102 proc_103 libbar
                {[libbar := 2]} {[libbar := 1]} ∅ H12 H13 H23 HA HB HC).
Defined.

(** C2 on the deleted [libfoo] line, which makes the count 1, and on the
    deleted [lib64] line, which changes nothing. *)
Lemma C2_witness :
  length (fields line_libfoo_deleted) = 7%nat
  /\ (contains lib_marker (nth 5 (fields line_libfoo_deleted) []) = true
      /\ contains deleted_marker (nth 6 (fields line_libfoo_deleted) [])
         = true)
  /\ (∅ : aggregate) !! proc_101 ≠ Some NotADict
  /\ (exists d',
         process_maps_entry proc_101 (fields line_libfoo_deleted) ∅
         = (Ok tt, d')
         /\ count_of d' proc_101 libfoo = Some 1
         /\ d' ≠ ∅)
  /\ length (fields line_lib64_deleted) = 7%nat
  /\ ~ (contains lib_marker (nth 5 (fields line_lib64_deleted) []) = true
        /\ contains deleted_marker (nth 6 (fields line_lib64_deleted) [])
           = true)
  /\ process_maps_entry proc_101 (fields line_lib64_deleted) three_processes
     = (Ok tt, three_processes).
Proof.
  assert (length (fields line_libfoo_deleted) = 7%nat) as Hlen by reflexivity.
  assert (contains lib_marker (nth 5 (fields line_libfoo_deleted) []) = true
          /\ contains deleted_marker (nth 6 (fields line_libfoo_deleted) [])
             = true) as Hmarkers by (split; reflexivity).
  assert ((∅ : aggregate) !! proc_101 ≠ Some NotADict) as Hdict
    by (vm_compute; congruence).
  assert (length (fields line_lib64_deleted) = 7%nat) as Hlen' by reflexivity.
  assert (~ (contains lib_marker (nth 5 (fields line_lib64_deleted) []) = true
             /\ contains deleted_marker
                  (nth 6 (fields line_lib64_deleted) []) = true)) as Hmiss
    by (vm_compute; intros [? _]; congruence).
  repeat (split; [assumption|]). split.
  - destruct (proj1 (C2_seven_fields_classification
                       proc_101 (fields line_libfoo_deleted) ∅ Hlen)
                    Hmarkers Hdict)
      as (d' & Hrun & Hcount & _ & Hchanged).
    exists d'. split; [exact Hrun|]. split; [exact Hcount|exact Hchanged].
  - repeat (split; [assumption|]).
    exact (proj2 (C2_seven_fields_classification
                    proc_101 (fields line_lib64_deleted) three_processes
                    Hlen')
                 Hmiss).
Defined.

(** C6 on the six-field line of a library that is still on disk. *)
Lemma C6_witness :
  length (fields line_libfoo_mapped) ≠ 7%nat
  /\ process_maps_entry proc_101 (fields line_libfoo_mapped) three_processes
     = (Ok tt, three_processes).
Proof.
  assert (length (fields line_libfoo_mapped) ≠ 7%nat) as Hlen
    by (vm_compute; lia).
  split; [assumption|].
  exact (C6_other_field_count_no_mutation
           proc_101 (fields line_libfoo_mapped) three_processes Hlen).
Defined.

(** C10 on a deleted library under [/lib64]. *)
Lemma C10_witness :
  length (fields line_lib64_deleted) = 7%nat
  /\ contains deleted_marker (nth 6 (fields line_lib64_deleted) []) = true
  /\ contains lib_marker (nth 5 (fields line_lib64_deleted) []) = false
  /\ process_maps_entry proc_101 (fields line_lib64_deleted) three_processes
     = (Ok tt, three_processes).
Proof.
  assert (length (fields line_lib64_deleted) = 7%nat) as Hlen by reflexivity.
  assert (contains deleted_marker (nth 6 (fields line_lib64_deleted) [])
          = true) as Hdel by reflexivity.
  assert (contains lib_marker (nth 5 (fields line_lib64_deleted) [])
          = false) as Hlib by reflexivity.
  repeat (split; [assumption|]).
  exact (proj1 C10_lib64_not_counted
           proc_101 (fields line_lib64_deleted) three_processes
           Hlen Hdel Hlib).
Defined.

(** C7 at [three_processes], with the items enumerated in reverse. *)
Lemma C7_witness :
  rev (map_to_list three_processes) ≡ₚ map_to_list three_processes
  /\ exists num,
       count_processes_per_library three_processes
       = (Ok num, three_processes)
       /\ count_items (rev (map_to_list three_processes)) ∅ = num.
Proof.
  assert (rev (map_to_list three_processes) ≡ₚ map_to_list three_processes)
    as Hperm by (symmetry; apply Permutation_rev).
  split; [assumption|].
  destruct (C7_count_idempotent three_processes) as (num & Hrun & _ & Horder).
  exists num. split; [exact Hrun|]. exact (Horder _ Hperm).
Defined.

(** C3 with process 999 between processes 101 and 102: gone ([ENOENT]), and
    unreadable ([EACCES]). *)
Lemma C3_witness :
  (scan_all_processes [(proc_101, Opened [Line line_libbar_deleted])] ∅
   = (Ok tt, {[proc_101 := LibraryCounts {[libbar := 1]}]})
   /\ scan_all_processes [(proc_102, Opened [Line line_libbar_deleted])]
        {[proc_101 := LibraryCounts {[libbar := 1]}]}
      = (Ok tt,
         <[proc_102 := LibraryCounts {[libbar := 1]}]>
           {[proc_101 := LibraryCounts {[libbar := 1]}]})
   /\ exists num,
        main ([(proc_101, Opened [Line line_libbar_deleted])]
              ++ (proc_999, OpenFails ENOENT)
              :: [(proc_102, Opened [Line line_libbar_deleted])])
        = Ok num
        /\ count_processes_per_library
             (<[proc_102 := LibraryCounts {[libbar := 1]}]>
                {[proc_101 := LibraryCounts {[libbar := 1]}]})
           = (Ok num,
              <[proc_102 := LibraryCounts {[libbar := 1]}]>
                {[proc_101 := LibraryCounts {[libbar := 1]}]}))
  /\ (EACCES ≠ ENOENT
      /\ main ([(proc_101, Opened [Line line_libbar_deleted])]
               ++ (proc_999, OpenFails EACCES)
               :: [(proc_102, Opened [Line line_libbar_deleted])])
         = Raise (SystemExit (failed_to_open proc_999))).
Proof.
  destruct (C3_open_error_policy
              [(proc_101, Opened [Line line_libbar_deleted])]
              [(proc_102, Opened [Line line_libbar_deleted])]
              proc_999) as (_ & _ & Hskip & Habort).
  assert (scan_all_processes [(proc_101, Opened [Line line_libbar_deleted])] ∅
          = (Ok tt, {[proc_101 := LibraryCounts {[libbar := 1]}]})) as Hpre
    by (vm_compute; reflexivity).
  assert (scan_all_processes [(proc_102, Opened [Line line_libbar_deleted])]
            {[proc_101 := LibraryCounts {[libbar := 1]}]}
          = (Ok tt,
             <[proc_102 := LibraryCounts {[libbar := 1]}]>
               {[proc_101 := LibraryCounts {[libbar := 1]}]})) as Hpost
    by (vm_compute; reflexivity).
  assert (EACCES ≠ ENOENT) as Herrno by (vm_compute; congruence).
  split.
  - split; [assumption|]. split; [assumption|].
    exact (Hskip _ _ Hpre Hpost).
  - split; [assumption|].
    exact (proj1 (Habort EACCES _ Herrno Hpre)).
Defined.

(** C9 on a maps file whose second line is the byte [0xff]. *)
Lemma C9_witness :
  scan_all_processes [] ∅ = (Ok tt, ∅)
  /\ read_lines proc_7 [Line line_libbar_deleted] ∅
     = (Ok tt, {[proc_7 := LibraryCounts {[libbar := 1]}]})
  /\ decode [xff] = None
  /\ main ([] ++ (proc_7,
                  Opened ([Line line_libbar_deleted]
                          ++ Line [xff] :: [Line line_libbar_deleted]))
              :: [(proc_101, Opened [Line line_libbar_deleted])])
     = Raise UnicodeDecodeError.
Proof.
  assert (scan_all_processes [] ∅ = (Ok tt, (∅ : aggregate))) as Hpre
    by reflexivity.
  assert (read_lines proc_7 [Line line_libbar_deleted] ∅
          = (Ok tt, {[proc_7 := LibraryCounts {[libbar := 1]}]})) as Hbefore
    by (vm_compute; reflexivity).
  assert (decode [xff] = None) as Hdecode by reflexivity.
  repeat (split; [assumption|]).
  exact (proj1 (C9_decode_failure_uncaught
                  [] [(proc_101, Opened [Line line_libbar_deleted])] proc_7
                  [Line line_libbar_deleted] [Line line_libbar_deleted] [xff]
                  ∅ _ Hpre Hbefore Hdecode)).
Defined.

(** C5 on [three_maps_files]: [libbar] is recorded, [libfoo], mapped but
    not deleted, is not. *)
Lemma C5_witness :
  (is_Some (count_of (snd (scan_all_processes three_maps_files ∅))
                     proc_101 libbar)
   /\ exists b, processed three_maps_files proc_101 b
                /\ deleted_library_record libbar b = true)
  /\ (main three_maps_files = Ok {[libbar := 2]}
      /\ is_Some (({[libbar := 2]} : counts) !! libbar)
      /\ exists p b, processed three_maps_files p b
                     /\ deleted_library_record libbar b = true)
  /\ ((forall p b, processed three_maps_files p b ->
                   deleted_library_record libfoo b = false)
      /\ (forall p,
             count_of (snd (scan_all_processes three_maps_files ∅)) p libfoo
             = None)
      /\ (forall num, main three_maps_files = Ok num -> num !! libfoo = None)).
Proof.
  destruct (C5_only_deleted_libraries_recorded three_maps_files)
    as (Hkeys & Hnum & Hnever).
  assert (is_Some (count_of (snd (scan_all_processes three_maps_files ∅))
                            proc_101 libbar)) as Hkey
    by (vm_compute; eauto).
  assert (main three_maps_files = Ok {[libbar := 2]}) as Hmain
    by (vm_compute; reflexivity).
  assert (is_Some (({[libbar := 2]} : counts) !! libbar)) as Hin
    by (vm_compute; eauto).
  assert (forall p b, processed three_maps_files p b ->
                      deleted_library_record libfoo b = false) as Hfoo.
  { intros p b Hb. apply processed_listed in Hb as (content & Hfile & Hline).
    simpl in Hfile.
    destruct Hfile as [Hfile|[Hfile|[Hfile|[]]]]; injection Hfile as <- <-;
      simpl in Hline;
      repeat (destruct Hline as [Hline|Hline];
              [injection Hline as <-; reflexivity|]);
      destruct Hline. }
  split; [|split].
  - split; [assumption|]. exact (Hkeys proc_101 libbar Hkey).
  - split; [assumption|]. split; [assumption|].
    exact (Hnum _ libbar Hmain Hin).
  - split; [assumption|]. exact (Hnever libfoo Hfoo).
Defined.

(** * More of the code *)

(** ** What one line and one file record *)

Lemma process_maps_entry_classify (path : str) (line_parts : list str)
    (d : aggregate) :
  snd (process_maps_entry path line_parts d) =
    match classify line_parts with
    | Some library => bump path library d
    | None => d
    end.
Proof.
  unfold classify.
  destruct (length line_parts =? 7)%nat eqn:Hlen; simpl.
  - apply Nat.eqb_eq in Hlen.
    destruct (contains lib_marker (nth 5 line_parts [])) eqn:Hlib; simpl;
      [|by rewrite process_maps_entry_miss by (by rewrite Hlib)].
    destruct (contains deleted_marker (nth 6 line_parts [])) eqn:Hdel; simpl;
      [|by rewrite process_maps_entry_miss by (by rewrite Hlib, Hdel)].
    rewrite process_maps_entry_hit by done. unfold bump.
    by destruct (d !! path) as [[m|]|].
  - apply Nat.eqb_neq in Hlen. by rewrite process_maps_entry_field_count.
Qed.

Lemma process_maps_entry_ok (path : str) (line_parts : list str)
    (d : aggregate) :
  d !! path ≠ Some NotADict ->
  fst (process_maps_entry path line_parts d) = Ok tt.
Proof.
  intros Hdict.
  destruct (decide (length line_parts = 7%nat)) as [Hlen|Hlen];
    [|by rewrite process_maps_entry_field_count].
  destruct (contains lib_marker (nth 5 line_parts [])) eqn:Hlib;
    [|by rewrite process_maps_entry_miss by (by rewrite Hlib)].
  destruct (contains deleted_marker (nth 6 line_parts [])) eqn:Hdel;
    [|by rewrite process_maps_entry_miss by (by rewrite Hlib, Hdel)].
  rewrite process_maps_entry_hit by done.
  by destruct (d !! path) as [[m|]|].
Qed.

Lemma bump_lookup_ne (path library p : str) (d : aggregate) :
  p ≠ path -> bump path library d !! p = d !! p.
Proof.
  intros Hne. unfold bump.
  destruct (d !! path) as [[m|]|]; by rewrite ?lookup_insert_ne.
Qed.

Lemma bump_count_of (path library l : str) (d : aggregate) :
  d !! path ≠ Some NotADict ->
  count_of (bump path library d) path l =
    if decide (l = library)
    then Some (default 0 (count_of d path library) + 1)
    else count_of d path l.
Proof.
  intros Hdict. unfold bump, count_of.
  destruct (d !! path) as [[m|]|] eqn:Hd; [|done|];
    rewrite lookup_insert_eq; case_decide as Hl; subst.
  - by rewrite lookup_insert_eq.
  - by rewrite lookup_insert_ne.
  - by rewrite lookup_singleton_eq.
  - by rewrite lookup_singleton_ne.
Qed.

Lemma bump_all_dicts (path library : str) (d : aggregate) :
  all_dicts d -> all_dicts (bump path library d).
Proof.
  intros Hd p. destruct (decide (p = path)) as [->|Hne].
  - unfold bump. specialize (Hd path).
    destruct (d !! path) as [[m|]|]; [|done|]; by rewrite lookup_insert_eq.
  - rewrite bump_lookup_ne by done. apply Hd.
Qed.

Lemma fields_decode (b : bytes) (s : str) :
  decode b = Some s -> fields b = split (strip s).
Proof. intros Hdecode. unfold fields. by rewrite Hdecode. Qed.

Lemma classify_record (library : str) (b : bytes) :
  deleted_library_record library b = true
  <-> classify (fields b) = Some library.
Proof.
  unfold deleted_library_record, classify, fields.
  destruct (decode b) as [s|]; [|done].
  set (line_parts := split (strip s)).
  destruct (length line_parts =? 7)%nat; simpl; [|done].
  destruct (decide (nth 5 line_parts [] = library)) as [<-|Hne].
  - rewrite bool_decide_eq_true_2 by done. simpl.
    destruct (contains lib_marker _), (contains deleted_marker _); naive_solver.
  - rewrite bool_decide_eq_false_2 by done. simpl.
    destruct (contains lib_marker (nth 5 line_parts [])),
      (contains deleted_marker _); naive_solver.
Qed.

(** Whatever all the [bump]s on [path] preserve, reading a maps file of
    [path] preserves. *)
Lemma read_lines_preserves (P : aggregate -> Prop) (path : str)
    (content : list chunk) (d : aggregate) :
  (forall library d, P d -> P (bump path library d)) ->
  P d -> P (snd (read_lines path content d)).
Proof.
  intros Hbump. revert d.
  induction content as [|[b|errno] content IH]; intros d Hd;
    cbn [read_lines]; try done.
  destruct (decode b) as [s|] eqn:Hdecode; [|done]. unfold bind.
  pose proof (process_maps_entry_classify path (split (strip s)) d) as Hstate.
  destruct (process_maps_entry path (split (strip s)) d) as [[[]|e] d'];
    simpl in Hstate; subst d'.
  - apply IH. destruct (classify _); [by apply Hbump|done].
  - simpl. destruct (classify _); [by apply Hbump|done].
Qed.

Lemma scan_all_processes_preserves (P : aggregate -> Prop)
    (table : proc_table) (d : aggregate) :
  (forall path library d, P d -> P (bump path library d)) ->
  P d -> P (snd (scan_all_processes table d)).
Proof.
  intros Hbump. revert d.
  induction table as [|[path f] table IH]; intros d Hd; [done|].
  destruct f as [errno|content].
  - rewrite scan_open_fails. destruct (errno =? ENOENT); [by apply IH|done].
  - rewrite scan_opened.
    pose proof (read_lines_preserves P path content d (Hbump path) Hd) as Hd'.
    destruct (read_lines path content d) as [[[]|[| |errno|msg]] d'];
      simpl in Hd'; try done.
    + by apply IH.
    + destruct (errno =? ENOENT); [by apply IH|done].
Qed.

Lemma all_dicts_empty : all_dicts ∅.
Proof. intros p. by rewrite lookup_empty. Qed.

Lemma read_lines_all_dicts (path : str) (content : list chunk)
    (d : aggregate) :
  all_dicts d -> all_dicts (snd (read_lines path content d)).
Proof.
  apply (read_lines_preserves all_dicts). intros library d'.
  apply bump_all_dicts.
Qed.

Lemma scan_all_processes_all_dicts (table : proc_table) (d : aggregate) :
  all_dicts d -> all_dicts (snd (scan_all_processes table d)).
Proof.
  apply (scan_all_processes_preserves all_dicts). intros path library d'.
  apply bump_all_dicts.
Qed.

(** With dict values only, reading a file stops for no other reason than a
    failed read or a line that does not decode, and leaves what the lines
    before that record. *)
Lemma read_lines_closed_form (path : str) (content : list chunk)
    (d : aggregate) :
  all_dicts d ->
  snd (read_lines path content d)
  = fold_left (record_line path) (lines_processed content) d
  /\ (fst (read_lines path content d) = Ok tt
      \/ fst (read_lines path content d) = Raise UnicodeDecodeError
      \/ exists errno, fst (read_lines path content d) = Raise (OSError errno))
  /\ (forallb clean_chunk content = true ->
      fst (read_lines path content d) = Ok tt
      \/ fst (read_lines path content d) = Raise (OSError ENOENT)).
Proof.
  revert d. induction content as [|[b|errno] content IH]; intros d Hd;
    cbn [read_lines lines_processed forallb clean_chunk].
  - split; [done|]. split; [by left|by left].
  - destruct (decode b) as [s|] eqn:Hdecode.
    + cbn [fold_left]. unfold record_line at 2.
      rewrite (fields_decode b s Hdecode). unfold bind.
      pose proof (process_maps_entry_classify path (split (strip s)) d)
        as Hstate.
      pose proof (process_maps_entry_ok path (split (strip s)) d (Hd path))
        as Hok.
      destruct (process_maps_entry path (split (strip s)) d) as [r d'].
      simpl in Hstate, Hok. subst r d'.
      rewrite bool_decide_eq_true_2 by eauto. apply IH.
      destruct (classify _); [by apply bump_all_dicts|done].
    + split; [done|]. split; [right; by left|].
      rewrite bool_decide_eq_false_2; [done|]. by intros [? ?].
  - split; [done|]. split; [right; right; by eexists|].
    simpl. intros [->%Z.eqb_eq _]%andb_true_iff. by right.
Qed.

Lemma fold_record_line_count (path library : str) (lines : list bytes)
    (d : aggregate) :
  d !! path ≠ Some NotADict ->
  count_of (fold_left (record_line path) lines d) path library =
    if (hits library lines =? 0)%nat
    then count_of d path library
    else Some (default 0 (count_of d path library)
               + Z.of_nat (hits library lines)).
Proof.
  unfold hits. revert d. induction lines as [|b lines IH]; intros d Hd;
    cbn [fold_left List.filter]; [done|].
  assert (record_line path d b !! path ≠ Some NotADict) as Hd'.
  { unfold record_line, bump. destruct (classify _); [|done].
    destruct (d !! path) as [[m|]|] eqn:Hp; [|done|];
      by rewrite lookup_insert_eq. }
  rewrite IH by done. clear IH.
  destruct (deleted_library_record library b) eqn:Hb.
  - apply classify_record in Hb. unfold record_line. rewrite Hb.
    rewrite bump_count_of, decide_True by done. cbn [length default].
    destruct (length _) as [|n]; simpl; [done|]. f_equal. lia.
  - assert (count_of (record_line path d b) path library
            = count_of d path library) as ->; [|done].
    unfold record_line. destruct (classify (fields b)) as [l|] eqn:Hl; [|done].
    rewrite bump_count_of by done. case_decide as Heq; [|done]. subst l.
    apply classify_record in Hl. congruence.
Qed.

Lemma fold_record_line_other (path p : str) (lines : list bytes)
    (d : aggregate) :
  p ≠ path -> fold_left (record_line path) lines d !! p = d !! p.
Proof.
  intros Hne. revert d. induction lines as [|b lines IH]; intros d; [done|].
  cbn [fold_left]. rewrite IH. unfold record_line.
  destruct (classify _); [by apply bump_lookup_ne|done].
Qed.

Lemma scan_all_processes_clean (table : proc_table) (d : aggregate) :
  all_dicts d -> clean table = true ->
  scan_all_processes table d = (Ok tt, fold_left record_file table d).
Proof.
  unfold clean. revert d.
  induction table as [|[path f] table IH]; intros d Hd Hclean; [done|].
  cbn [forallb] in Hclean. apply andb_true_iff in Hclean as [Hf Htable].
  cbn [fold_left]. destruct f as [errno|content]; simpl in Hf.
  - rewrite scan_open_fails, Hf. by apply IH.
  - rewrite scan_opened. unfold record_file at 2. simpl.
    destruct (read_lines_closed_form path content d Hd)
      as (Hstate & _ & Hresult).
    pose proof (read_lines_all_dicts path content d Hd) as Hd'.
    destruct (read_lines path content d) as [r d']. simpl in *. subst d'.
    destruct (Hresult Hf) as [->| ->]; [by apply IH|].
    simpl. by apply IH.
Qed.

Lemma scan_all_processes_result (table : proc_table) (d : aggregate) :
  all_dicts d ->
  fst (scan_all_processes table d) = Ok tt
  \/ fst (scan_all_processes table d) = Raise UnicodeDecodeError
  \/ exists path f,
       In (path, f) table
       /\ fst (scan_all_processes table d)
          = Raise (SystemExit (failed_to_open path)).
Proof.
  revert d. induction table as [|[path f] table IH]; intros d Hd; [by left|].
  assert (forall d', all_dicts d' ->
            fst (scan_all_processes table d') = Ok tt
            \/ fst (scan_all_processes table d') = Raise UnicodeDecodeError
            \/ exists path' f',
                 In (path', f') ((path, f) :: table)
                 /\ fst (scan_all_processes table d')
                    = Raise (SystemExit (failed_to_open path'))) as IH'.
  { intros d' Hd'. destruct (IH d' Hd') as [?|[?|(p & f' & ? & ?)]];
      [by left|right; by left|].
    right. right. exists p, f'. split; [by right|done]. }
  destruct f as [errno|content].
  - rewrite scan_open_fails. destruct (errno =? ENOENT); [by apply IH'|].
    right. right. exists path, (OpenFails errno). split; [by left|done].
  - rewrite scan_opened.
    destruct (read_lines_closed_form path content d Hd) as (_ & Hresult & _).
    pose proof (read_lines_all_dicts path content d Hd) as Hd'.
    destruct (read_lines path content d) as [r d']. simpl in *.
    destruct Hresult as [->|[->|[errno ->]]].
    + by apply IH'.
    + right. by left.
    + destruct (errno =? ENOENT); [by apply IH'|].
      right. right. exists path, (Opened content). split; [by left|done].
Qed.

Lemma bump_positive_counts (path library : str) (d : aggregate) :
  positive_counts d -> positive_counts (bump path library d).
Proof.
  intros Hd p e Hp. destruct (decide (p = path)) as [->|Hne];
    [|rewrite bump_lookup_ne in Hp by done; by apply (Hd p)].
  unfold bump in Hp. destruct (d !! path) as [[m|]|] eqn:Hpath.
  - rewrite lookup_insert_eq in Hp. injection Hp as <-.
    destruct (Hd path _ Hpath) as (m' & [= <-] & Hne & Hpos).
    eexists. split; [done|]. split; [apply insert_non_empty|].
    intros l n Hl. destruct (decide (l = library)) as [->|Hl'].
    + rewrite lookup_insert_eq in Hl. injection Hl as <-.
      destruct (m !! library) as [v|] eqn:Hv; simpl; [|lia].
      specialize (Hpos library v Hv). lia.
    + rewrite lookup_insert_ne in Hl by done. by eapply Hpos.
  - by apply (Hd path).
  - rewrite lookup_insert_eq in Hp. injection Hp as <-.
    eexists. split; [done|]. split; [apply insert_non_empty|].
    intros l n Hl. apply lookup_singleton_Some in Hl as [_ <-]. lia.
Qed.

Lemma bump_keeps_keys (path library p l : str) (d : aggregate) :
  is_Some (count_of d p l) -> is_Some (count_of (bump path library d) p l).
Proof.
  intros Hkey. unfold count_of in *.
  destruct (decide (p = path)) as [->|Hne];
    [|by rewrite bump_lookup_ne by done].
  unfold bump. destruct (d !! path) as [[m|]|] eqn:Hpath;
    [|by destruct Hkey..].
  rewrite lookup_insert_eq. destruct (decide (l = library)) as [->|Hl].
  - rewrite lookup_insert_eq. eauto.
  - by rewrite lookup_insert_ne.
Qed.

Lemma processed_recorded (table : proc_table) (p library : str) (b : bytes) :
  processed table p b ->
  deleted_library_record library b = true ->
  is_Some (count_of (snd (scan_all_processes table ∅)) p library).
Proof.
  intros (pre & content & post & d1 & -> & Hpre
          & before & after & d2 & -> & Hbefore & [s Hs]) Hb.
  assert (all_dicts d1) as Hd1.
  { pose proof (scan_all_processes_all_dicts pre ∅ all_dicts_empty) as H.
    by rewrite Hpre in H. }
  assert (all_dicts d2) as Hd2.
  { pose proof (read_lines_all_dicts p before d1 Hd1) as H.
    by rewrite Hbefore in H. }
  rewrite scan_all_processes_app, Hpre.
  set (d3 := bump p library d2).
  assert (is_Some (count_of d3 p library)) as Hkey.
  { unfold d3. rewrite bump_count_of, decide_True by done. eauto. }
  assert (read_lines p (before ++ Line b :: after) d1
          = read_lines p after d3) as Hread.
  { rewrite read_lines_app, Hbefore. cbn [read_lines]. rewrite Hs.
    unfold bind.
    pose proof (process_maps_entry_classify p (split (strip s)) d2) as Hstate.
    pose proof (process_maps_entry_ok p (split (strip s)) d2 (Hd2 p)) as Hok.
    destruct (process_maps_entry p (split (strip s)) d2) as [r d'].
    simpl in Hstate, Hok. subst r d'.
    apply classify_record in Hb. rewrite (fields_decode b s Hs) in Hb.
    by rewrite Hb. }
  assert (is_Some (count_of (snd (read_lines p after d3)) p library)) as Hkey'.
  { apply (read_lines_preserves
             (fun d => is_Some (count_of d p library))); [|done].
    intros l d. apply bump_keeps_keys. }
  rewrite scan_opened, Hread.
  destruct (read_lines p after d3) as [[[]|[| |errno|msg]] d4];
    simpl in Hkey'; try done.
  - apply (scan_all_processes_preserves
             (fun d => is_Some (count_of d p library))); [|done].
    intros path l d. apply bump_keeps_keys.
  - destruct (errno =? ENOENT); [|done].
    apply (scan_all_processes_preserves
             (fun d => is_Some (count_of d p library))); [|done].
    intros path l d. apply bump_keeps_keys.
Qed.

Lemma add_records_add (c : option Z) (k1 k2 : nat) :
  add_records (add_records c k1) k2 = add_records c (k1 + k2).
Proof.
  unfold add_records. destruct k1 as [|k1], k2 as [|k2]; simpl; try done.
  - f_equal. lia.
  - f_equal. lia.
Qed.

Lemma record_file_all_dicts (d : aggregate) (pf : str * maps_file) :
  all_dicts d -> all_dicts (record_file d pf).
Proof.
  destruct pf as [path [errno|content]]; unfold record_file; simpl; [done|].
  generalize (lines_processed content). intros lines. revert d.
  induction lines as [|b lines IH]; intros d Hd; [done|].
  cbn [fold_left]. apply IH. unfold record_line.
  destruct (classify _); [by apply bump_all_dicts|done].
Qed.

Lemma record_file_count (d : aggregate) (pf : str * maps_file)
    (p library : str) :
  all_dicts d ->
  count_of (record_file d pf) p library
  = add_records (count_of d p library) (table_hits p library [pf]).
Proof.
  intros Hd. destruct pf as [path [errno|content]];
    unfold record_file, table_hits; simpl; [done|].
  case_bool_decide as Hp.
  - subst path. rewrite fold_record_line_count by apply Hd.
    by rewrite Nat.add_0_r.
  - unfold count_of. by rewrite fold_record_line_other by done.
Qed.

Lemma fold_record_file_all_dicts (table : proc_table) (d : aggregate) :
  all_dicts d -> all_dicts (fold_left record_file table d).
Proof.
  revert d. induction table as [|pf table IH]; intros d Hd; [done|].
  cbn [fold_left]. by apply IH, record_file_all_dicts.
Qed.

Lemma fold_record_file_count (table : proc_table) (d : aggregate)
    (p library : str) :
  all_dicts d ->
  count_of (fold_left record_file table d) p library
  = add_records (count_of d p library) (table_hits p library table).
Proof.
  revert d. induction table as [|pf table IH]; intros d Hd; [done|].
  cbn [fold_left]. rewrite IH by by apply record_file_all_dicts.
  rewrite record_file_count, add_records_add by done.
  f_equal. unfold table_hits. simpl. lia.
Qed.

Lemma table_hits_listed (p library : str) (table : proc_table) :
  table_hits p library table ≠ 0%nat -> p ∈ map fst table.
Proof.
  unfold table_hits. induction table as [|[path f] table IH]; simpl; [done|].
  intros Hne. destruct (decide (path = p)) as [->|Hp]; [by left|].
  right. apply IH. destruct f; [done|].
  by rewrite bool_decide_eq_false_2 in Hne.
Qed.

Lemma table_hits_Permutation (p library : str) (table table' : proc_table) :
  table ≡ₚ table' -> table_hits p library table = table_hits p library table'.
Proof. intros Hperm. unfold table_hits. by rewrite Hperm. Qed.

Lemma count_of_links (d : aggregate) (p library : str) :
  is_Some (count_of d p library)
  <-> exists e, d !! p = Some e /\ links library e = true.
Proof.
  unfold count_of. split.
  - destruct (d !! p) as [[m|]|]; intros Hkey; try by destruct Hkey.
    eexists. split; [done|]. by apply bool_decide_eq_true.
  - intros ([m|] & -> & He); [|done]. by apply bool_decide_eq_true in He.
Qed.

Lemma processes_linking_size (library : str) (d : aggregate) (X : gset str) :
  (forall p, p ∈ X <-> is_Some (count_of d p library)) ->
  processes_linking library d = size X.
Proof.
  revert X. induction d as [|i e d Hfresh IH] using map_ind; intros X HX.
  - assert (X = ∅) as ->; [|done].
    apply set_eq. intros p. rewrite HX. unfold count_of.
    rewrite lookup_empty, elem_of_empty. split; [by intros [? ?]|done].
  - rewrite processes_linking_insert by done.
    assert (forall p, p ∈ X ∖ {[i]} <-> is_Some (count_of d p library)) as HX'.
    { intros p. rewrite elem_of_difference, HX, not_elem_of_singleton.
      unfold count_of. destruct (decide (p = i)) as [->|Hne].
      - rewrite Hfresh. split; [by intros [_ ?]|by intros [? ?]].
      - rewrite lookup_insert_ne by done. split; [by intros [? _]|done]. }
    rewrite (IH _ HX').
    assert (i ∈ X <-> links library e = true) as Hi.
    { rewrite HX, count_of_links, lookup_insert_eq. split.
      - by intros (e' & [= <-] & He).
      - intros He. by exists e. }
    clear HX HX' IH. destruct (links library e).
    + assert (i ∈ X) as Hin by by apply Hi.
      clear Hi.
      transitivity (size ({[i]} ∪ X ∖ {[i]})).
      * assert (({[i]} : gset str) ## X ∖ {[i]}) as Hdisj.
        { apply disjoint_singleton_l. rewrite elem_of_difference.
          intros [_ Hni]. by apply Hni, elem_of_singleton. }
        rewrite (size_union (C:=gset str) {[i]} (X ∖ {[i]}) Hdisj).
        by rewrite (size_singleton (C:=gset str)).
      * f_equal. symmetry. apply union_difference_L.
        by apply singleton_subseteq_l.
    + assert (i ∉ X) as Hout by (rewrite Hi; done).
      clear Hi. simpl.
      by rewrite difference_disjoint_L by by apply disjoint_singleton_r.
Qed.

Lemma positive_counts_empty : positive_counts ∅.
Proof. intros p e Hp. by rewrite lookup_empty in Hp. Qed.

Lemma scan_all_processes_positive_counts (table : proc_table) :
  positive_counts (snd (scan_all_processes table ∅)).
Proof.
  apply (scan_all_processes_preserves positive_counts);
    [|apply positive_counts_empty].
  intros path library d. apply bump_positive_counts.
Qed.

Lemma positive_counts_ext (d1 d2 : aggregate) :
  positive_counts d1 -> positive_counts d2 ->
  (forall p library, count_of d1 p library = count_of d2 p library) ->
  d1 = d2.
Proof.
  assert (forall d1 d2 p m,
             positive_counts d1 ->
             (forall library, count_of d1 p library = count_of d2 p library) ->
             d1 !! p = Some (LibraryCounts m) ->
             d2 !! p = None -> False) as Hnone.
  { intros d d' p m Hd Hcount Hp Hp'.
    destruct (Hd p _ Hp) as (m' & [= <-] & Hne & _).
    apply map_choose in Hne as (library & n & Hn).
    specialize (Hcount library). unfold count_of in Hcount.
    rewrite Hp, Hp', Hn in Hcount. done. }
  intros Hd1 Hd2 Hcount. apply map_eq. intros p.
  destruct (d1 !! p) as [e1|] eqn:Hp1, (d2 !! p) as [e2|] eqn:Hp2; try done.
  - destruct (Hd1 p _ Hp1) as (m1 & -> & _).
    destruct (Hd2 p _ Hp2) as (m2 & -> & _). do 2 f_equal.
    apply map_eq. intros library. specialize (Hcount p library).
    unfold count_of in Hcount. by rewrite Hp1, Hp2 in Hcount.
  - destruct (Hd1 p _ Hp1) as (m1 & -> & _). exfalso.
    by apply (Hnone d1 d2 p m1).
  - destruct (Hd2 p _ Hp2) as (m2 & -> & _). exfalso.
    by apply (Hnone d2 d1 p m2).
Qed.

Lemma clean_Permutation (table table' : proc_table) :
  table ≡ₚ table' -> clean table = clean table'.
Proof.
  unfold clean. induction 1 as [|x l l' _ IH|x y l|l l' l'' _ IH1 _ IH2];
    simpl; try done.
  - by rewrite IH.
  - by destruct (clean_file x.2), (clean_file y.2).
  - by rewrite IH1.
Qed.

Lemma scan_all_processes_Permutation (table table' : proc_table) :
  clean table = true -> table ≡ₚ table' ->
  scan_all_processes table' ∅ = scan_all_processes table ∅.
Proof.
  intros Hclean Hperm.
  assert (clean table' = true) as Hclean'
    by by rewrite <- (clean_Permutation _ _ Hperm).
  pose proof (scan_all_processes_positive_counts table) as Hpos.
  pose proof (scan_all_processes_positive_counts table') as Hpos'.
  rewrite scan_all_processes_clean in Hpos, Hpos' |- *
    by (done || apply all_dicts_empty).
  rewrite (scan_all_processes_clean table) by (done || apply all_dicts_empty).
  f_equal. apply positive_counts_ext; [done..|].
  intros p library.
  rewrite !fold_record_file_count by apply all_dicts_empty.
  by rewrite (table_hits_Permutation _ _ _ _ Hperm).
Qed.

Lemma elem_of_linking_paths (library p : str) (table : proc_table) :
  p ∈ linking_paths library table <-> table_hits p library table ≠ 0%nat.
Proof.
  unfold linking_paths. rewrite elem_of_filter, elem_of_list_to_set. split.
  - by intros [? _].
  - intros Hne. split; [done|]. by apply (table_hits_listed p library).
Qed.

Lemma linking_nonzero (library p : str) (e : entry)
    (items : list (str * entry)) :
  In (p, e) items -> links library e = true -> linking library items ≠ 0%nat.
Proof.
  unfold linking. intros Hin He.
  induction items as [|pe items IH]; [done|]. simpl.
  destruct Hin as [->|Hin]; simpl.
  - by rewrite He.
  - destruct (links library pe.2); [done|by apply IH].
Qed.

(** X1: reading one maps file into a dictionary whose values are dicts adds,
    for every library, the number of deleted-library records of it among
    the lines processed to the count of that process (nothing when there is
    none, counting from 0 when there was no count), and leaves every other
    process's entry as it was. *)
Theorem X1_file_counts_records (path : str) (content : list chunk)
    (d : aggregate) (library : str) :
  all_dicts d ->
  count_of (snd (read_lines path content d)) path library
  = add_records (count_of d path library)
                (hits library (lines_processed content))
  /\ forall p, p ≠ path -> snd (read_lines path content d) !! p = d !! p.
Proof.
  intros Hd. destruct (read_lines_closed_form path content d Hd) as (-> & _).
  split.
  - apply fold_record_line_count, Hd.
  - intros p Hp. by apply fold_record_line_other.
Qed.

(** X2: a run of [main] ends in one of three ways only: it prints, or
    [UnicodeDecodeError] is uncaught, or it exits with the message that
    names one of the listed paths.  No [OSError] and no [AttributeError]
    leaves [main]. *)
Theorem X2_main_outcomes (table : proc_table) :
  (exists num, main table = Ok num)
  \/ main table = Raise UnicodeDecodeError
  \/ exists path f,
       In (path, f) table
       /\ main table = Raise (SystemExit (failed_to_open path)).
Proof.
  rewrite main_eq.
  destruct (scan_all_processes_result table ∅ all_dicts_empty)
    as [Hr|[Hr|(path & f & Hin & Hr)]];
    destruct (scan_all_processes table ∅) as [r d]; simpl in Hr; subst r.
  - left. by eexists.
  - right. by left.
  - right. right. by exists path, f.
Qed.

(** X3: when every open succeeds or fails with [ENOENT], every line decodes
    and every failing read fails with [ENOENT], the scan completes, and the
    count it holds for a process and a library is the number of
    deleted-library records of that library among the lines processed from
    the files listed under that path (no entry when there is none). *)
Theorem X3_clean_scan_counts (table : proc_table) :
  clean table = true ->
  exists d,
    scan_all_processes table ∅ = (Ok tt, d)
    /\ forall p library,
         count_of d p library = add_records None (table_hits p library table).
Proof.
  intros Hclean. eexists.
  split; [by apply scan_all_processes_clean; [apply all_dicts_empty|]|].
  intros p library. by rewrite fold_record_file_count by apply all_dicts_empty.
Qed.

(** X4: under the same condition [main] prints, and the count it prints for
    a library is the number of distinct listed paths that have at least one
    deleted-library record of it among their processed lines; a library
    with none is not printed. *)
Theorem X4_clean_main_counts (table : proc_table) :
  clean table = true ->
  exists num,
    main table = Ok num
    /\ forall library,
         num !! library
         = add_records None (size (linking_paths library table)).
Proof.
  intros Hclean. eexists. split.
  - rewrite main_eq.
    by rewrite scan_all_processes_clean by (done || apply all_dicts_empty).
  - intros library. rewrite derived_lookup.
    rewrite (processes_linking_size library _ (linking_paths library table)).
    + unfold add_records. by destruct (size _).
    + intros p. rewrite elem_of_linking_paths.
      rewrite fold_record_file_count by apply all_dicts_empty.
      unfold add_records.
      destruct (table_hits p library table); simpl; [|by eauto].
      split; [done|by intros [? ?]].
Qed.

(** X5: a read that fails with an error number other than [ENOENT], after
    the file was opened and some lines were read, ends the run by
    [sys.exit] with the same message as a failed open, naming the path. *)
Theorem X5_read_error_exits (pre post : proc_table) (path : str)
    (before after : list chunk) (errno : Z) (d1 d2 : aggregate) :
  scan_all_processes pre ∅ = (Ok tt, d1) ->
  read_lines path before d1 = (Ok tt, d2) ->
  errno ≠ ENOENT ->
  main (pre ++ (path, Opened (before ++ ReadFails errno :: after)) :: post)
  = Raise (SystemExit (failed_to_open path)).
Proof.
  intros Hpre Hbefore Herrno.
  rewrite main_eq, scan_all_processes_app, Hpre, scan_opened.
  rewrite read_lines_app, Hbefore. cbn [read_lines]. unfold raise.
  by apply Z.eqb_neq in Herrno as ->.
Qed.

(** X6: a read that fails with [ENOENT] ends the file there: the scan goes
    on exactly as if the file had ended before that read, so what the
    earlier lines of the file recorded stays recorded. *)
Theorem X6_read_ENOENT_truncates (pre post : proc_table) (path : str)
    (before after : list chunk) (d : aggregate) :
  scan_all_processes
    (pre ++ (path, Opened (before ++ ReadFails ENOENT :: after)) :: post) d
  = scan_all_processes (pre ++ (path, Opened before) :: post) d.
Proof.
  rewrite !scan_all_processes_app.
  destruct (scan_all_processes pre d) as [[[]|e] d1]; [|done].
  rewrite !scan_opened, read_lines_app.
  destruct (read_lines path before d1) as [[[]|e] d2]; [|done].
  done.
Qed.

(** X7: at every point the scan of [main] can stop, every entry of the
    per-process dictionary is a dict with at least one library, and every
    count in it is at least 1: no entry is made for a process without a
    deleted library. *)
Theorem X7_scan_entries_positive (table : proc_table) (p : str) (e : entry) :
  snd (scan_all_processes table ∅) !! p = Some e ->
  exists m,
    e = LibraryCounts m
    /\ m ≠ ∅
    /\ forall library n, m !! library = Some n -> 1 <= n.
Proof. apply scan_all_processes_positive_counts. Qed.

(** X8: every deleted-library record that a run processes is recorded: its
    library is a key of its process in the per-process dictionary from then
    on, and a key of the printed dictionary when the run prints. *)
Theorem X8_processed_records_kept (table : proc_table) (p library : str)
    (b : bytes) :
  processed table p b ->
  deleted_library_record library b = true ->
  is_Some (count_of (snd (scan_all_processes table ∅)) p library)
  /\ forall num, main table = Ok num -> is_Some (num !! library).
Proof.
  intros Hb Hrecord.
  pose proof (processed_recorded table p library b Hb Hrecord) as Hkey.
  split; [done|]. intros num Hmain. rewrite main_eq in Hmain.
  destruct (scan_all_processes table ∅) as [[[]|e] d]; [|done].
  injection Hmain as <-. simpl in Hkey. rewrite derived_lookup.
  apply count_of_links in Hkey as (e & Hp & He).
  apply elem_of_map_to_list, list_elem_of_In in Hp.
  pose proof (linking_nonzero library _ _ _ Hp He) as Hne.
  apply Nat.eqb_neq in Hne. unfold processes_linking. rewrite Hne. eauto.
Qed.

(** X9: when nothing stops the scan (as in X3), the order in which [glob]
    lists the paths does not matter: listing them in another order gives
    the same per-process dictionary and the same result of [main]. *)
Theorem X9_listing_order_irrelevant (table table' : proc_table) :
  clean table = true ->
  table ≡ₚ table' ->
  scan_all_processes table' ∅ = scan_all_processes table ∅
  /\ main table' = main table.
Proof.
  intros Hclean Hperm.
  pose proof (scan_all_processes_Permutation table table' Hclean Hperm) as Heq.
  split; [done|]. by rewrite !main_eq, Heq.
Qed.

(** ** More on count_processes_per_library *)

Lemma processes_linking_union (library : str) (d1 d2 : aggregate) :
  d1 ##ₘ d2 ->
  processes_linking library (d1 ∪ d2)
  = (processes_linking library d1 + processes_linking library d2)%nat.
Proof.
  induction d1 as [|i e d1 Hfresh IH] using map_ind; intros Hdisj.
  - by rewrite (left_id_L ∅ (∪)).
  - apply map_disjoint_insert_l in Hdisj as [Hi Hdisj].
    rewrite <- insert_union_l.
    rewrite !processes_linking_insert, IH; [lia|done..|].
    by apply lookup_union_None.
Qed.

Lemma total_insert_fresh (num : counts) (library : str) (n : Z) :
  num !! library = None -> total (<[library := n]> num) = n + total num.
Proof.
  intros Hfresh. unfold total.
  rewrite map_fold_insert_L; [done| |done].
  intros j1 j2 z1 z2 y _ _ _. lia.
Qed.

Lemma total_bump (num : counts) (library : str) :
  total (iadd library 1 (setdefault library 0 num)) = total num + 1.
Proof.
  rewrite setdefault_iadd. destruct (num !! library) as [v|] eqn:Hv; simpl.
  - rewrite <- (insert_delete_eq num).
    rewrite total_insert_fresh by apply lookup_delete_eq.
    rewrite <- (insert_delete_id num library v) at 2 by done.
    rewrite total_insert_fresh by apply lookup_delete_eq. lia.
  - rewrite total_insert_fresh by done. lia.
Qed.

Lemma total_count_libraries (libraries : list str) (num : counts) :
  total (count_libraries libraries num)
  = total num + Z.of_nat (length libraries).
Proof.
  unfold count_libraries. revert num.
  induction libraries as [|l libraries IH]; intros num;
    cbn [fold_left length]; [lia|].
  rewrite IH, total_bump. lia.
Qed.

Lemma total_count_items (items : list (str * entry)) (num : counts) :
  total (count_items items num) = total num + Z.of_nat (pairs items).
Proof.
  unfold count_items, pairs. revert num.
  induction items as [|[p e] items IH]; intros num; simpl; [lia|].
  rewrite IH. destruct e as [m|]; simpl.
  - rewrite total_count_libraries, length_fmap, length_map_to_list. lia.
  - lia.
Qed.

(** X10: the counts of two per-process dictionaries that share no process
    add up: for every library, the count derived from their union is the
    sum of the counts derived from each. *)
Theorem X10_counts_add_over_disjoint_processes (d1 d2 : aggregate) :
  d1 ##ₘ d2 ->
  exists num1 num2 num,
    count_processes_per_library d1 = (Ok num1, d1)
    /\ count_processes_per_library d2 = (Ok num2, d2)
    /\ count_processes_per_library (d1 ∪ d2) = (Ok num, d1 ∪ d2)
    /\ forall library,
         default 0 (num !! library)
         = default 0 (num1 !! library) + default 0 (num2 !! library).
Proof.
  intros Hdisj. do 3 eexists.
  repeat (split; [apply count_processes_per_library_eq|]).
  intros library. rewrite !derived_lookup, processes_linking_union by done.
  destruct (processes_linking library d1), (processes_linking library d2);
    simpl; lia.
Qed.

(** X11: the dictionary returned has a library as a key exactly when some
    dict value of the argument has it as a key, and every count in it is at
    least 1: no library is reported with 0. *)
Theorem X11_count_keys_and_positive (d : aggregate) :
  exists num,
    count_processes_per_library d = (Ok num, d)
    /\ (forall library,
           is_Some (num !! library)
           <-> exists p m, d !! p = Some (LibraryCounts m)
                           /\ is_Some (m !! library))
    /\ forall library n, num !! library = Some n -> 1 <= n.
Proof.
  eexists. split; [apply count_processes_per_library_eq|]. split.
  - intros library. rewrite derived_lookup. split.
    + destruct (processes_linking library d =? 0)%nat eqn:Hn;
        [by intros [? ?]|].
      intros _. apply Nat.eqb_neq, linking_pos in Hn as (p & m & Hin & Hm).
      exists p, m. split; [|done].
      by apply elem_of_map_to_list, list_elem_of_In.
    + intros (p & m & Hp & Hm).
      apply elem_of_map_to_list, list_elem_of_In in Hp.
      assert (links library (LibraryCounts m) = true) as He
        by by apply bool_decide_eq_true.
      pose proof (linking_nonzero library _ _ _ Hp He) as Hne.
      apply Nat.eqb_neq in Hne. unfold processes_linking. rewrite Hne. eauto.
  - intros library n. rewrite derived_lookup.
    destruct (processes_linking library d) as [|k]; simpl; [done|].
    intros [= <-]. lia.
Qed.

(** X12: the counts returned sum to the number of (process, library) pairs
    of the argument: every key of every dict value is counted once, and
    nothing else is. *)
Theorem X12_counts_sum_to_pairs (d : aggregate) :
  exists num,
    count_processes_per_library d = (Ok num, d)
    /\ total num = Z.of_nat (pairs (map_to_list d)).
Proof.
  eexists. split; [apply count_processes_per_library_eq|].
  rewrite total_count_items. unfold total. by rewrite map_fold_empty.
Qed.

(** ** The fields of a line *)

Lemma split_aux_words (acc s : str) :
  Forall (fun c => isspace c = false) acc ->
  Forall word (split_aux acc s).
Proof.
  revert acc. induction s as [|c s IH]; intros acc Hacc; cbn [split_aux].
  - destruct acc as [|a acc]; [done|]. apply Forall_singleton. split.
    + intros Hnil. apply (f_equal length) in Hnil.
      rewrite length_rev in Hnil. done.
    + by apply Forall_rev.
  - destruct (isspace c) eqn:Hc.
    + destruct acc as [|a acc]; [by apply IH|]. apply Forall_cons. split.
      * split.
        -- intros Hnil. apply (f_equal length) in Hnil.
           rewrite length_rev in Hnil. done.
        -- by apply Forall_rev.
      * by apply IH.
    + apply IH. by apply Forall_cons.
Qed.

Lemma split_aux_spaces (acc ws : str) :
  Forall (fun c => isspace c = true) ws ->
  split_aux acc ws = split_aux acc [].
Proof.
  intros Hws. revert acc. induction Hws as [|c ws Hc _ IH]; intros acc; [done|].
  cbn [split_aux]. rewrite Hc. destruct acc as [|a acc]; [apply IH|].
  by rewrite IH.
Qed.

Lemma split_aux_app_spaces (acc s ws : str) :
  Forall (fun c => isspace c = true) ws ->
  split_aux acc (s ++ ws) = split_aux acc s.
Proof.
  intros Hws. revert acc. induction s as [|c s IH]; intros acc.
  - by apply split_aux_spaces.
  - cbn [app split_aux]. destruct (isspace c); [|apply IH].
    destruct acc; by rewrite IH.
Qed.

Lemma lstrip_spec (s : str) :
  exists ws, Forall (fun c => isspace c = true) ws /\ s = ws ++ lstrip s.
Proof.
  induction s as [|c s (ws & Hws & IH)]; [by exists []|]. cbn [lstrip].
  destruct (isspace c) eqn:Hc; [|by exists []].
  exists (c :: ws). split; [by apply Forall_cons|]. simpl. by f_equal.
Qed.

Lemma lstrip_app_spaces (ws s : str) :
  Forall (fun c => isspace c = true) ws -> lstrip (ws ++ s) = lstrip s.
Proof.
  induction 1 as [|a ws Ha _ IH]; [done|]. cbn [app lstrip]. by rewrite Ha.
Qed.

Lemma split_lstrip (s : str) : split (lstrip s) = split s.
Proof.
  unfold split. induction s as [|c s IH]; [done|]. cbn [lstrip].
  destruct (isspace c) eqn:Hc; [|done]. cbn [split_aux]. by rewrite Hc.
Qed.

Lemma split_rstrip (s : str) : split (rstrip s) = split s.
Proof.
  unfold rstrip, split. destruct (lstrip_spec (rev s)) as (ws & Hws & Hs).
  apply (f_equal (@rev N)) in Hs. rewrite rev_involutive, rev_app_distr in Hs.
  rewrite Hs at 2. symmetry. apply split_aux_app_spaces. by apply Forall_rev.
Qed.

Lemma split_aux_word (acc w rest : str) :
  Forall (fun c => isspace c = false) w ->
  split_aux acc (w ++ rest) = split_aux (rev w ++ acc) rest.
Proof.
  intros Hw. revert acc. induction Hw as [|c w Hc _ IH]; intros acc; [done|].
  cbn [app split_aux]. rewrite Hc, IH. simpl. by rewrite <- app_assoc.
Qed.

Lemma split_join (gap : str) (ws : list str) :
  gap ≠ [] -> Forall (fun c => isspace c = true) gap ->
  Forall word ws ->
  split (join gap ws) = ws.
Proof.
  intros Hne Hsep Hws. unfold split.
  induction Hws as [|w ws [Hw Hchars] Hws IH]; [done|].
  destruct ws as [|w' ws].
  - simpl. rewrite <- (app_nil_r w) at 1.
    rewrite split_aux_word, app_nil_r by done. simpl.
    destruct (rev w) eqn:Hrev.
    + apply (f_equal length) in Hrev. rewrite length_rev in Hrev.
      by destruct w.
    + by rewrite <- Hrev, rev_involutive.
  - change (join gap (w :: w' :: ws)) with (w ++ gap ++ join gap (w' :: ws)).
    rewrite split_aux_word, app_nil_r by done.
    destruct gap as [|c gap]; [done|].
    apply Forall_cons in Hsep as [Hc Hsep].
    cbn [app split_aux]. rewrite Hc.
    destruct (rev w) eqn:Hrev.
    + apply (f_equal length) in Hrev. rewrite length_rev in Hrev.
      by destruct w.
    + rewrite <- Hrev, rev_involutive. f_equal.
      fold (split (gap ++ join (c :: gap) (w' :: ws))).
      rewrite <- split_lstrip.
      rewrite lstrip_app_spaces by done.
      rewrite split_lstrip. apply IH.
Qed.

Lemma decode_N_ascii (bs : list N) :
  Forall (fun b => (b < 128)%N) bs -> decode_N bs = Some bs.
Proof.
  induction 1 as [|b bs Hb _ IH]; [done|]. cbn [decode_N].
  apply N.ltb_lt in Hb. by rewrite Hb, IH.
Qed.

Lemma split_strip (s : str) : split (strip s) = split s.
Proof. unfold strip. by rewrite split_rstrip, split_lstrip. Qed.

Lemma word_deleted_marker : word deleted_marker.
Proof. split; [done|]. repeat constructor. Qed.

(** X13: the fields that [line.decode().strip().split()] gives are those of
    [split()] alone, [strip()] changes nothing; and every field is a
    non-empty string without whitespace. *)
Theorem X13_fields_are_words (s : str) :
  split (strip s) = split s /\ Forall word (split s).
Proof.
  split; [apply split_strip|]. by apply split_aux_words.
Qed.

(** X14: splitting undoes joining: fields that are non-empty and free of
    whitespace, joined by a non-empty run of whitespace and followed by any
    whitespace (the newline of the line), are the fields that the line is
    split into. *)
Theorem X14_split_join_round_trip (gap trail : str) (ws : list str) :
  gap ≠ [] ->
  Forall (fun c => isspace c = true) gap ->
  Forall (fun c => isspace c = true) trail ->
  Forall word ws ->
  split (join gap ws) = ws
  /\ split (strip (join gap ws ++ trail)) = ws.
Proof.
  intros Hne Hsep Htrail Hws.
  assert (split (join gap ws) = ws) as Hsplit by by apply split_join.
  split; [done|]. rewrite split_strip. unfold split.
  by rewrite split_aux_app_spaces.
Qed.

(** X15: a mapping line of a deleted library whose path contains a space is
    split into 8 fields, the path in two, and [process_maps_entry] ignores
    it: the dictionary is unchanged. *)
Theorem X15_path_with_space_ignored (path : str) (d : aggregate)
    (f1 f2 f3 f4 f5 a b : str) :
  Forall word [f1; f2; f3; f4; f5; a; b] ->
  process_maps_entry path
    (split (strip (join (py " ") [f1; f2; f3; f4; f5; a; b; deleted_marker]
                   ++ [10%N])))
    d
  = (Ok tt, d).
Proof.
  intros Hws.
  assert (split (strip (join (py " ")
                          [f1; f2; f3; f4; f5; a; b; deleted_marker]
                        ++ [10%N]))
          = [f1; f2; f3; f4; f5; a; b; deleted_marker]) as ->.
  { rewrite split_strip. unfold split.
    rewrite split_aux_app_spaces by (by repeat constructor).
    apply split_join; [done|by repeat constructor|].
    change [f1; f2; f3; f4; f5; a; b; deleted_marker]
      with ([f1; f2; f3; f4; f5; a; b] ++ [deleted_marker]).
    apply Forall_app. split; [done|].
    apply Forall_singleton, word_deleted_marker. }
  by apply process_maps_entry_field_count.
Qed.

(** X16: a line of bytes below 128 always decodes, to the code points that
    are its bytes: an ASCII maps file never raises [UnicodeDecodeError]. *)
Theorem X16_ascii_decodes (b : bytes) :
  Forall (fun x => (Byte.to_N x < 128)%N) b ->
  decode b = Some (map Byte.to_N b).
Proof.
  intros Hb. unfold decode. apply decode_N_ascii. by apply Forall_fmap.
Qed.

(** X17: every library path that the scan records, and every library path
    that [main] prints, contains ["/lib/"] and has no whitespace in it. *)
Theorem X17_recorded_paths_shape (table : proc_table) :
  (forall p library,
      is_Some (count_of (snd (scan_all_processes table ∅)) p library) ->
      contains lib_marker library = true /\ word library)
  /\ (forall num library,
         main table = Ok num ->
         is_Some (num !! library) ->
         contains lib_marker library = true /\ word library).
Proof.
  assert (forall library b,
             deleted_library_record library b = true ->
             contains lib_marker library = true /\ word library) as Hshape.
  { intros library b Hb. unfold deleted_library_record in Hb.
    destruct (decode b) as [s|]; [|done].
    apply andb_true_iff in Hb as [[[Hlen Hnth]%andb_true_iff Hlib]%andb_true_iff _].
    split; [done|]. apply Nat.eqb_eq in Hlen.
    apply bool_decide_eq_true in Hnth.
    pose proof (split_aux_words [] (strip s) (Forall_nil_2 _)) as Hwords.
    fold (split (strip s)) in Hwords.
    rewrite Forall_forall in Hwords. apply Hwords.
    rewrite <- Hnth. apply list_elem_of_In, nth_In. lia. }
  pose proof (recorded_scan_all_processes (fun _ _ => True) table ∅
                (fun _ _ _ => I) (recorded_empty _)) as Hrec.
  assert (forall p library,
             is_Some (count_of (snd (scan_all_processes table ∅)) p library) ->
             contains lib_marker library = true /\ word library) as Hkeys.
  { intros p library Hkey. unfold count_of in Hkey.
    destruct (_ !! p) as [e|] eqn:Hp; [|by destruct Hkey].
    destruct (Hrec p e Hp) as (m & -> & Hm).
    destruct (Hm library Hkey) as (b & _ & Hb). by apply (Hshape library b). }
  split; [done|]. intros num library Hmain Hkey. rewrite main_eq in Hmain.
  destruct (scan_all_processes table ∅) as [[[]|e] d]; [|done].
  injection Hmain as <-. rewrite derived_lookup in Hkey.
  destruct (processes_linking library d =? 0)%nat eqn:Hn; [by destruct Hkey|].
  apply Nat.eqb_neq, linking_pos in Hn as (p & m & Hin & Hm).
  apply list_elem_of_In, elem_of_map_to_list in Hin.
  apply (Hkeys p). unfold count_of. simpl. by rewrite Hin.
Qed.

(** ** The labels of the gauge *)

Lemma after_last_sep_spec (p : str) :
  ((sep ∉ p) /\ after_last_sep p = 0%nat)
  \/ exists pre tail,
       p = pre ++ sep :: tail /\ (sep ∉ tail)
       /\ after_last_sep p = S (length pre).
Proof.
  induction p as [|c p [[Hp Hi]|(pre & tail & -> & Htail & Hi)]].
  - left. split; [apply not_elem_of_nil|done].
  - cbn [after_last_sep]. rewrite Hi.
    destruct (c =? sep)%N eqn:Hc.
    + apply N.eqb_eq in Hc as ->. right. by exists [], p.
    + apply N.eqb_neq in Hc. left. split; [|done].
      apply not_elem_of_cons. split; [congruence|done].
  - right. exists (c :: pre), tail. cbn [after_last_sep]. by rewrite Hi.
Qed.

Lemma lstrip_sep_spec (s : str) :
  exists k, s = replicate k sep ++ lstrip_sep s.
Proof.
  induction s as [|c s [k IH]]; [by exists 0%nat|]. cbn [lstrip_sep].
  destruct (c =? sep)%N eqn:Hc; [|by exists 0%nat].
  apply N.eqb_eq in Hc as ->. exists (S k). simpl. by f_equal.
Qed.

Lemma rev_replicate_sep (k : nat) : rev (replicate k sep) = replicate k sep.
Proof.
  induction k as [|k IH]; [done|]. rewrite replicate_S_end at 2.
  simpl. by rewrite IH.
Qed.

Lemma rstrip_sep_spec (s : str) :
  exists k, s = rstrip_sep s ++ replicate k sep.
Proof.
  unfold rstrip_sep. destruct (lstrip_sep_spec (rev s)) as [k Hk].
  exists k. apply (f_equal (@rev N)) in Hk.
  by rewrite rev_involutive, rev_app_distr, rev_replicate_sep in Hk.
Qed.

Lemma os_path_split_no_sep (p : str) :
  sep ∉ p -> os_path_split p = ([], p).
Proof.
  intros Hp. destruct (after_last_sep_spec p)
    as [[_ Hi]|(pre & tail & -> & _ & _)].
  - unfold os_path_split. by rewrite Hi.
  - exfalso. apply Hp. apply elem_of_app. right. by left.
Qed.

Lemma os_path_split_sep (pre tail : str) :
  sep ∉ tail ->
  os_path_split (pre ++ sep :: tail)
  = (if all_sep (pre ++ [sep]) then pre ++ [sep]
     else rstrip_sep (pre ++ [sep]),
     tail).
Proof.
  intros Htail.
  destruct (after_last_sep_spec (pre ++ sep :: tail))
    as [[Hp _]|(pre' & tail' & Heq & Htail' & Hi)].
  { exfalso. apply Hp. apply elem_of_app. right. by left. }
  assert (pre' = pre /\ tail' = tail) as [-> ->].
  { clear Hi. revert pre' Heq.
    induction pre as [|c pre IH]; intros [|c' pre'] Heq; simplify_eq/=.
    - done.
    - exfalso. apply Htail. apply elem_of_app. right. by left.
    - exfalso. apply Htail'. apply elem_of_app. right. by left.
    - destruct (IH pre') as [-> ->]; done. }
  unfold os_path_split. rewrite Hi.
  replace (pre ++ sep :: tail) with ((pre ++ [sep]) ++ tail)
    by by rewrite <- app_assoc.
  rewrite take_app_length', drop_app_length'
    by (rewrite length_app; simpl; lia).
  rewrite bool_decide_eq_false_2 by by destruct pre.
  simpl. by destruct (all_sep (pre ++ [sep])).
Qed.

Lemma lstrip_sep_head (s : str) : head (lstrip_sep s) ≠ Some sep.
Proof.
  induction s as [|c s IH]; [done|]. cbn [lstrip_sep].
  destruct (c =? sep)%N eqn:Hc; [done|]. apply N.eqb_neq in Hc.
  simpl. congruence.
Qed.

Lemma rstrip_sep_last (s : str) : last (rstrip_sep s) ≠ Some sep.
Proof.
  unfold rstrip_sep. pose proof (lstrip_sep_head (rev s)) as Hhead.
  destruct (lstrip_sep (rev s)) as [|c l]; [done|].
  simpl. rewrite last_snoc. simpl in Hhead. done.
Qed.

Lemma all_sep_snoc (pre : str) (x : N) :
  all_sep (pre ++ [x]) = all_sep pre && (x =? sep)%N.
Proof.
  unfold all_sep. rewrite forallb_app. simpl. by rewrite andb_true_r.
Qed.

Lemma os_path_split_rejoin (p : str) :
  single_seps p = true -> rejoin (os_path_split p) = p.
Proof.
  intros Hp. apply negb_true_iff in Hp.
  destruct (after_last_sep_spec p) as [[Hno _]|(pre & tail & -> & Htail & _)].
  { by rewrite os_path_split_no_sep. }
  rewrite os_path_split_sep by done.
  destruct pre as [|c pre _] using rev_ind; [done|].
  assert (x_ne : c ≠ sep).
  { intros ->. assert (contains [sep; sep] ((pre ++ [sep]) ++ sep :: tail)
                       = true) as Hin; [|congruence].
    apply contains_spec. exists pre, tail. by rewrite <- !app_assoc. }
  apply N.eqb_neq in x_ne as Hc.
  rewrite !all_sep_snoc, Hc, andb_false_r. simpl.
  assert (rstrip_sep ((pre ++ [c]) ++ [sep]) = pre ++ [c]) as ->.
  { unfold rstrip_sep. rewrite !rev_app_distr. simpl. rewrite Hc. simpl.
    by rewrite rev_involutive. }
  unfold rejoin. simpl.
  rewrite bool_decide_eq_false_2 by by destruct pre.
  rewrite bool_decide_eq_false_2; [done|].
  destruct pre as [|? [|? ?]]; simpl; congruence.
Qed.

Lemma set_labels_lookup (items : list (str * Z)) (g : gmap (str * str) Z)
    (library : str) :
  NoDup (map fst items) ->
  (forall k, k ∈ map fst items ->
             os_path_split k = os_path_split library -> k = library) ->
  set_labels items g !! os_path_split library =
    match (list_to_map items : counts) !! library with
    | Some count => Some count
    | None => g !! os_path_split library
    end.
Proof.
  unfold set_labels. revert g.
  induction items as [|[k c] items IH]; intros g Hnd Hinj; [done|].
  apply NoDup_cons in Hnd as [Hk Hnd]. cbn [fold_left].
  rewrite IH; [|done|intros k' Hk'; apply Hinj; by right].
  rewrite list_to_map_cons. destruct (decide (k = library)) as [->|Hne].
  - rewrite (lookup_insert_eq (list_to_map items)).
    rewrite (not_elem_of_list_to_map_1 items library) by done.
    by rewrite lookup_insert_eq.
  - rewrite (lookup_insert_ne (list_to_map items)) by done.
    destruct (list_to_map items !! library); [done|].
    rewrite lookup_insert_ne; [done|].
    intros Heq. apply Hne, Hinj; [by left|done].
Qed.

(** X18: [os.path.split] cuts a path after its last separator: the base
    name has no separator in it, the path is the directory, then some
    separators, then the base name, and the directory does not end in a
    separator unless it is nothing but separators. *)
Theorem X18_split_takes_path_apart (p : str) :
  (sep ∉ snd (os_path_split p))
  /\ (exists k,
         p = fst (os_path_split p) ++ replicate k sep ++ snd (os_path_split p))
  /\ (all_sep (fst (os_path_split p)) = true
      \/ last (fst (os_path_split p)) ≠ Some sep).
Proof.
  destruct (after_last_sep_spec p) as [[Hno _]|(pre & tail & -> & Htail & _)].
  - rewrite os_path_split_no_sep by done. split; [done|].
    split; [by exists 0%nat|by left].
  - rewrite os_path_split_sep by done. simpl. split; [done|].
    destruct (all_sep (pre ++ [sep])) eqn:Hall.
    + split; [|by left]. exists 0%nat. by rewrite <- app_assoc.
    + split; [|right; apply rstrip_sep_last].
      destruct (rstrip_sep_spec (pre ++ [sep])) as [k Hk]. exists k.
      rewrite app_assoc, <- Hk. by rewrite <- app_assoc.
Qed.

(** X19: two paths without a doubled separator that get the same pair of
    labels are the same path: such libraries never share a series of the
    gauge. *)
Theorem X19_labels_distinguish_paths (p1 p2 : str) :
  single_seps p1 = true ->
  single_seps p2 = true ->
  os_path_split p1 = os_path_split p2 ->
  p1 = p2.
Proof.
  intros H1 H2 Heq.
  rewrite <- (os_path_split_rejoin p1 H1), <- (os_path_split_rejoin p2 H2).
  by rewrite Heq.
Qed.

(** X20: when no library path of the derived dictionary has a doubled
    separator, the gauge holds, whatever the order of the items, the count
    of every such library under its pair of labels, and nothing under the
    labels of a library that is not in the dictionary. *)
Theorem X20_gauge_holds_counts (num : counts) (items : list (str * Z))
    (library : str) :
  (forall k, is_Some (num !! k) -> single_seps k = true) ->
  single_seps library = true ->
  items ≡ₚ map_to_list num ->
  set_labels items ∅ !! os_path_split library = num !! library.
Proof.
  intros Hkeys Hlib Hperm.
  assert (NoDup (map fst items)) as Hnd.
  { rewrite Hperm. apply NoDup_fst_map_to_list. }
  assert ((list_to_map items : counts) = num) as Hmap.
  { rewrite <- (list_to_map_to_list num). by apply list_to_map_proper. }
  rewrite set_labels_lookup; [|done|].
  - rewrite Hmap, lookup_empty. by destruct (num !! library).
  - intros k Hk Heq.
    apply list_elem_of_fmap in Hk as [[k' c] [-> Hk]].
    rewrite Hperm in Hk. apply elem_of_map_to_list in Hk. simpl in *.
    assert (single_seps k' = true) as Hk' by (apply Hkeys; eauto).
    rewrite <- (os_path_split_rejoin k' Hk').
    rewrite <- (os_path_split_rejoin library Hlib). by rewrite Heq.
Qed.

(** ** These properties at sample inputs *)

(** X1 on a file with two records of [libbar], read into the empty
    dictionary. *)
Lemma X1_witness :
  all_dicts ∅
  /\ count_of
       (snd (read_lines proc_101
               [Line line_libbar_deleted; Line line_libbar_deleted] ∅))
       proc_101 libbar
     = add_records
         (count_of ∅ proc_101 libbar)
         (hits libbar
            (lines_processed
               [Line line_libbar_deleted; Line line_libbar_deleted])).
Proof.
  split; [exact all_dicts_empty|].
  exact (proj1 (X1_file_counts_records
                  proc_101 [Line line_libbar_deleted; Line line_libbar_deleted]
                  ∅ libbar all_dicts_empty)).
Defined.

(** X3 on [three_maps_files]. *)
Lemma X3_witness :
  clean three_maps_files = true
  /\ exists d,
       scan_all_processes three_maps_files ∅ = (Ok tt, d)
       /\ forall p library,
            count_of d p library
            = add_records None (table_hits p library three_maps_files).
Proof.
  assert (clean three_maps_files = true) as Hclean by reflexivity.
  split; [assumption|].
  exact (X3_clean_scan_counts three_maps_files Hclean).
Defined.

(** X4 on [three_maps_files]. *)
Lemma X4_witness :
  clean three_maps_files = true
  /\ exists num,
       main three_maps_files = Ok num
       /\ forall library,
            num !! library
            = add_records None (size (linking_paths library three_maps_files)).
Proof.
  assert (clean three_maps_files = true) as Hclean by reflexivity.
  split; [assumption|].
  exact (X4_clean_main_counts three_maps_files Hclean).
Defined.

(** X5 on a file whose second read fails with [EACCES]. *)
Lemma X5_witness :
  scan_all_processes [] ∅ = (Ok tt, ∅)
  /\ read_lines proc_7 [Line line_libbar_deleted] ∅
     = (Ok tt, {[proc_7 := LibraryCounts {[libbar := 1]}]})
  /\ EACCES ≠ ENOENT
  /\ main ([] ++ (proc_7,
                  Opened ([Line line_libbar_deleted]
                          ++ ReadFails EACCES :: [Line line_libbar_deleted]))
              :: [(proc_101, Opened [Line line_libbar_deleted])])
     = Raise (SystemExit (failed_to_open proc_7)).
Proof.
  assert (scan_all_processes [] ∅ = (Ok tt, (∅ : aggregate))) as Hpre
    by reflexivity.
  assert (read_lines proc_7 [Line line_libbar_deleted] ∅
          = (Ok tt, {[proc_7 := LibraryCounts {[libbar := 1]}]})) as Hbefore
    by (vm_compute; reflexivity).
  assert (EACCES ≠ ENOENT) as Herrno by (vm_compute; congruence).
  repeat (split; [assumption|]).
  exact (X5_read_error_exits
           [] [(proc_101, Opened [Line line_libbar_deleted])] proc_7
           [Line line_libbar_deleted] [Line line_libbar_deleted] EACCES
           ∅ _ Hpre Hbefore Herrno).
Defined.

(** X7 on the entry of process 101 after the scan of [three_maps_files]. *)
Lemma X7_witness :
  snd (scan_all_processes three_maps_files ∅) !! proc_101
  = Some (LibraryCounts {[libbar := 2]})
  /\ exists m,
       LibraryCounts {[libbar := 2]} = LibraryCounts m
       /\ m ≠ ∅
       /\ forall library n, m !! library = Some n -> 1 <= n.
Proof.
  assert (snd (scan_all_processes three_maps_files ∅) !! proc_101
          = Some (LibraryCounts {[libbar := 2]})) as Hp
    by (vm_compute; reflexivity).
  split; [assumption|].
  exact (X7_scan_entries_positive three_maps_files proc_101 _ Hp).
Defined.

(** X8 on the first line of process 101 in [three_maps_files]. *)
Lemma X8_witness :
  processed three_maps_files proc_101 line_libbar_deleted
  /\ deleted_library_record libbar line_libbar_deleted = true
  /\ is_Some (count_of (snd (scan_all_processes three_maps_files ∅))
                       proc_101 libbar)
  /\ forall num, main three_maps_files = Ok num -> is_Some (num !! libbar).
Proof.
  assert (processed three_maps_files proc_101 line_libbar_deleted) as Hb.
  { exists [],
      [Line line_libbar_deleted; Line line_libbar_deleted],
      [(proc_102, Opened [Line line_libbar_deleted]);
       (proc_103, Opened [Line line_libfoo_mapped])],
      ∅.
    split; [reflexivity|]. split; [reflexivity|].
    exists [], [Line line_libbar_deleted], ∅.
    split; [reflexivity|]. split; [reflexivity|].
    vm_compute. eauto. }
  assert (deleted_library_record libbar line_libbar_deleted = true) as Hrecord
    by reflexivity.
  repeat (split; [assumption|]).
  exact (X8_processed_records_kept
           three_maps_files proc_101 libbar line_libbar_deleted Hb Hrecord).
Defined.

(** X9 on [three_maps_files] listed in reverse. *)
Lemma X9_witness :
  clean three_maps_files = true
  /\ three_maps_files ≡ₚ rev three_maps_files
  /\ scan_all_processes (rev three_maps_files) ∅
     = scan_all_processes three_maps_files ∅
  /\ main (rev three_maps_files) = main three_maps_files.
Proof.
  assert (clean three_maps_files = true) as Hclean by reflexivity.
  assert (three_maps_files ≡ₚ rev three_maps_files) as Hperm
    by apply Permutation_rev.
  repeat (split; [assumption|]).
  exact (X9_listing_order_irrelevant
           three_maps_files (rev three_maps_files) Hclean Hperm).
Defined.

(** X10 on process 101 and process 102, each alone in its dictionary. *)
Lemma X10_witness :
  ({[proc_101 := LibraryCounts {[libbar := 2]}]} : aggregate)
    ##ₘ {[proc_102 := LibraryCounts {[libbar := 1]}]}
  /\ exists num1 num2 num,
       count_processes_per_library
         {[proc_101 := LibraryCounts {[libbar := 2]}]}
       = (Ok num1, {[proc_101 := LibraryCounts {[libbar := 2]}]})
       /\ count_processes_per_library
            {[proc_102 := LibraryCounts {[libbar := 1]}]}
          = (Ok num2, {[proc_102 := LibraryCounts {[libbar := 1]}]})
       /\ count_processes_per_library
            ({[proc_101 := LibraryCounts {[libbar := 2]}]}
             ∪ {[proc_102 := LibraryCounts {[libbar := 1]}]})
          = (Ok num,
             {[proc_101 := LibraryCounts {[libbar := 2]}]}
             ∪ {[proc_102 := LibraryCounts {[libbar := 1]}]})
       /\ forall library,
            default 0 (num !! library)
            = default 0 (num1 !! library) + default 0 (num2 !! library).
Proof.
  assert (({[proc_101 := LibraryCounts {[libbar := 2]}]} : aggregate)
            ##ₘ {[proc_102 := LibraryCounts {[libbar := 1]}]}) as Hdisj.
  { apply map_disjoint_singleton_l. vm_compute. reflexivity. }
  split; [assumption|].
  exact (X10_counts_add_over_disjoint_processes _ _ Hdisj).
Defined.

(** X11 at [three_processes]: [libbar] is a key of the result. *)
Lemma X11_witness :
  exists num,
    count_processes_per_library three_processes = (Ok num, three_processes)
    /\ is_Some (num !! libbar).
Proof.
  destruct (X11_count_keys_and_positive three_processes)
    as (num & Hrun & Hkeys & _).
  exists num. split; [exact Hrun|].
  apply (proj2 (Hkeys libbar)).
  exists proc_101, {[libbar := 2]}. split; vm_compute; eauto.
Defined.

(** X14 on two fields joined by a space and ended by a newline. *)
Lemma X14_witness :
  py " " ≠ []
  /\ Forall (fun c => isspace c = true) (py " ")
  /\ Forall (fun c => isspace c = true) [10%N]
  /\ Forall word [py "r-xp"; libbar]
  /\ split (join (py " ") [py "r-xp"; libbar]) = [py "r-xp"; libbar]
  /\ split (strip (join (py " ") [py "r-xp"; libbar] ++ [10%N]))
     = [py "r-xp"; libbar].
Proof.
  assert (py " " ≠ []) as Hne by (vm_compute; congruence).
  assert (Forall (fun c => isspace c = true) (py " ")) as Hsep
    by (repeat constructor).
  assert (Forall (fun c => isspace c = true) [10%N]) as Htrail
    by (repeat constructor).
  assert (Forall word [py "r-xp"; libbar]) as Hws.
  { repeat constructor; vm_compute; congruence. }
  repeat (split; [assumption|]).
  exact (X14_split_join_round_trip (py " ") [10%N] [py "r-xp"; libbar]
           Hne Hsep Htrail Hws).
Defined.

(** X15 on a deleted library at ["/lib/my lib.so"]. *)
Lemma X15_witness :
  Forall word [py "7f00-7f01"; py "r-xp"; py "00000000"; py "08:01";
               py "131"; py "/lib/my"; py "lib.so"]
  /\ process_maps_entry proc_101
       (split (strip (join (py " ")
                        [py "7f00-7f01"; py "r-xp"; py "00000000";
                         py "08:01"; py "131"; py "/lib/my"; py "lib.so";
                         deleted_marker]
                      ++ [10%N])))
       three_processes
     = (Ok tt, three_processes).
Proof.
  assert (Forall word [py "7f00-7f01"; py "r-xp"; py "00000000"; py "08:01";
                       py "131"; py "/lib/my"; py "lib.so"]) as Hws.
  { repeat constructor; vm_compute; congruence. }
  split; [assumption|].
  exact (X15_path_with_space_ignored proc_101 three_processes _ _ _ _ _ _ _ Hws).
Defined.

(** X16 on the line of a deleted [libbar]. *)
Lemma X16_witness :
  Forall (fun x => (Byte.to_N x < 128)%N) line_libbar_deleted
  /\ decode line_libbar_deleted = Some (map Byte.to_N line_libbar_deleted).
Proof.
  assert (Forall (fun x => (Byte.to_N x < 128)%N) line_libbar_deleted) as Hb.
  { repeat constructor. }
  split; [assumption|].
  exact (X16_ascii_decodes line_libbar_deleted Hb).
Defined.

(** X17 on [three_maps_files]: the path recorded for process 101. *)
Lemma X17_witness :
  is_Some (count_of (snd (scan_all_processes three_maps_files ∅))
                    proc_101 libbar)
  /\ contains lib_marker libbar = true
  /\ word libbar.
Proof.
  assert (is_Some (count_of (snd (scan_all_processes three_maps_files ∅))
                            proc_101 libbar)) as Hkey
    by (vm_compute; eauto).
  split; [assumption|].
  exact (proj1 (X17_recorded_paths_shape three_maps_files)
           proc_101 libbar Hkey).
Defined.

(** X19 on [libfoo], written as a literal and by its name. *)
Lemma X19_witness :
  single_seps libfoo = true
  /\ single_seps (py "/lib/x86_64-linux-gnu/libfoo.so.1") = true
  /\ os_path_split libfoo
     = os_path_split (py "/lib/x86_64-linux-gnu/libfoo.so.1")
  /\ libfoo = py "/lib/x86_64-linux-gnu/libfoo.so.1".
Proof.
  assert (single_seps libfoo = true) as H1 by reflexivity.
  assert (single_seps (py "/lib/x86_64-linux-gnu/libfoo.so.1") = true) as H2
    by reflexivity.
  assert (os_path_split libfoo
          = os_path_split (py "/lib/x86_64-linux-gnu/libfoo.so.1")) as Heq
    by reflexivity.
  repeat (split; [assumption|]).
  exact (X19_labels_distinguish_paths _ _ H1 H2 Heq).
Defined.

(** X20 on the dictionary that [main] derives from one process with a
    deleted [libfoo]: the series labelled [/lib/x86_64-linux-gnu] and
    [libfoo.so.1] has the value 1. *)
Lemma X20_witness :
  (forall k, is_Some (({[libfoo := 1]} : counts) !! k) ->
             single_seps k = true)
  /\ single_seps libfoo = true
  /\ map_to_list ({[libfoo := 1]} : counts) ≡ₚ map_to_list {[libfoo := 1]}
  /\ set_labels (map_to_list ({[libfoo := 1]} : counts)) ∅
       !! (py "/lib/x86_64-linux-gnu", py "libfoo.so.1")
     = ({[libfoo := 1]} : counts) !! libfoo.
Proof.
  assert (forall k, is_Some (({[libfoo := 1]} : counts) !! k) ->
                    single_seps k = true) as Hkeys.
  { intros k [n Hk]. apply lookup_singleton_Some in Hk as [<- _].
    reflexivity. }
  assert (single_seps libfoo = true) as Hlib by reflexivity.
  assert (map_to_list ({[libfoo := 1]} : counts)
            ≡ₚ map_to_list {[libfoo := 1]}) as Hperm by reflexivity.
  repeat (split; [assumption|]).
  exact (X20_gauge_holds_counts {[libfoo := 1]} _ libfoo Hkeys Hlib Hperm).
Defined.
